(** * VU-AMS serial protocol: a shallow embedding of [vuams_serial.py]

    The development follows the class [AmsDevice]: the packet codec
    ([send_packet]), the polling receive loop ([receive_packet]), the
    presence check, the command helpers, the marker frame and the
    connect / disconnect life cycle.

    Conventions.
    - Python integers are [Z]; a [bytes]/[bytearray] value is a [list Z]
      whose elements lie in 0..255 (the constructor checks the range).
    - A Python [str] is the list of its code points ([ord] of each
      character), so that non-ASCII characters are single elements.
    - Time is counted in milliseconds: [timeout=3] is 3000 and
      [time.sleep(0.1)] is a sleep of 100.
    - A function that returns [None], [True] or [False] returns
      [option bool], with [None] for Python's [None]. *)

From Stdlib Require Import ZArith List Lia Bool Ascii.
From Stdlib Require DecimalString DecimalZ HexadecimalString HexadecimalN.
From stdpp Require Import base list strings gmap.
Import ListNotations.
Local Open Scope Z_scope.

(** ** CRC-32 as computed by [zlib.crc32] *)

Module Crc.

(** [zlib.crc32] is the library routine the source calls; it is the
    reflected CRC-32 of ISO 3309 (polynomial 0xEDB88320, initial value and
    final complement 0xFFFFFFFF), written here bit by bit. *)
Definition poly : Z := 0xEDB88320.

Definition crc_bit (c : Z) : Z :=
  if Z.testbit c 0 then Z.lxor (Z.shiftr c 1) poly else Z.shiftr c 1.

Definition crc_byte (c b : Z) : Z :=
  let c0 := Z.lxor c b in
  crc_bit (crc_bit (crc_bit (crc_bit (crc_bit (crc_bit (crc_bit (crc_bit c0))))))).

Definition crc32 (data : list Z) : Z :=
  Z.lxor (fold_left crc_byte data 0xFFFFFFFF) 0xFFFFFFFF.

End Crc.

(** ** The packet codec: the byte construction of [send_packet] *)

Module Codec.

(** [bytearray(l)] raises [ValueError] unless every element is in
    0..255; [None] stands for that exception. *)
Definition bytearray (l : list Z) : option (list Z) :=
  if forallb (fun x => (0 <=? x) && (x <? 256)) l then Some l else None.

(** [(p + 256) % 256]; Python's [%] is the floored modulo, which is
    [Z.modulo] for a positive divisor. *)
Definition normalize (p : Z) : Z := (p + 256) mod 256.

(** [[(crc >> (8 * i)) & 0xFF for i in range(4)]] *)
Definition crc_bytes (crc : Z) : list Z :=
  map (fun i => Z.land (Z.shiftr crc (8 * i)) 0xFF) [0; 1; 2; 3].

(** The most-significant-byte-first rendering of a 32-bit value, for
    comparison with what the source computes. *)
Definition big_endian_bytes (crc : Z) : list Z :=
  map (fun i => Z.land (Z.shiftr crc (8 * i)) 0xFF) [3; 2; 1; 0].

(** Lines 92-99 of the source: the bytes handed to [serialPort.write]. *)
Definition build_frame (packet : list Z) : option (list Z) :=
  match bytearray (map normalize packet) with
  | None => None
  | Some byte_packet =>
      let crc := Z.land (Crc.crc32 byte_packet) 0xFFFFFFFF in
      match bytearray (crc_bytes crc) with
      | None => None
      | Some cb => Some (byte_packet ++ cb)
      end
  end.

End Codec.

(** ** The marker frame built by [send_marker] *)

Module Marker.

(** [s[:32]] *)
Definition truncate (s : list Z) : list Z := take 32 s.

(** [.encode('ascii', 'replace')]: a code point below 128 is its own
    byte, any other is the byte of ['?'] (63). *)
Definition encode_ascii_replace (s : list Z) : list Z :=
  map (fun c => if c <? 128 then c else 63) s.

(** [.decode()]: on bytes below 128, which is all the ascii codec
    produces, UTF-8 decoding gives back the same code points. *)
Definition decode (bs : list Z) : list Z := bs.

(** [.replace('?', '_')] with one-character arguments acts character by
    character: 63 becomes 95. *)
Definition replace_qmark (s : list Z) : list Z :=
  map (fun c => if c =? 63 then 95 else c) s.

(** Lines 216-217: the processed marker text. *)
Definition marker_text (s : list Z) : list Z :=
  replace_qmark (decode (encode_ascii_replace (truncate s))).

(** [b[j] = v] on a Python list: [IndexError] (here [None]) when [j] is
    not an index of [b]. *)
Definition setitem (b : list Z) (j : nat) (v : Z) : option (list Z) :=
  if decide (j < length b)%nat then Some (<[j:=v]> b) else None.

(** Lines 219-231. *)
Definition marker_header : option (list Z) :=
  b ← Some (replicate 52 0);
  b ← setitem b 0 56;
  b ← setitem b 2 14;
  b ← setitem b 4 3;
  b ← setitem b 6 48;
  b ← setitem b 8 17;
  b ← setitem b 9 17;
  b ← setitem b 10 17;
  b ← setitem b 11 17;
  b ← setitem b 12 1;
  setitem b 16 4.

(** Lines 234-235, over the indices [js] of the [range]:
    [b[j] = ord(s[j - 20])]. *)
Fixpoint fill (s : list Z) (js : list nat) (b : list Z) : option (list Z) :=
  match js with
  | [] => Some b
  | j :: js' =>
      c ← s !! (j - 20)%nat;
      b' ← setitem b j c;
      fill s js' b'
  end.

(** The list [b] that [send_marker] hands to [send_packet]. *)
Definition marker_packet (s : list Z) : option (list Z) :=
  let t := marker_text s in
  b ← marker_header;
  fill t (seq 20 (length t)) b.

(** The processed text as the specification words it: the first 32
    characters, with each non-ASCII character replaced by an underscore. *)
Definition spec_marker_text (s : list Z) : list Z :=
  map (fun c => if c <? 128 then c else 95) (take 32 s).

(** The indices of the constant header bytes with their values. *)
Definition header_constants : list (nat * Z) :=
  [(0%nat, 56); (2%nat, 14); (4%nat, 3); (6%nat, 48); (8%nat, 17);
   (9%nat, 17); (10%nat, 17); (11%nat, 17); (12%nat, 1); (16%nat, 4)].

End Marker.

(** ** Python control flow: exceptions and results *)

(** The exceptions the program can meet. [KeyboardInterrupt] derives from
    [BaseException] only; the others derive from [Exception]. *)
Inductive exn :=
  | KeyboardInterrupt
  | SerialException
  | AttributeError
  | OSError
  | ValueError
  | IndexError.

Definition is_Exception (e : exn) : bool :=
  match e with KeyboardInterrupt => false | _ => true end.

Definition is_SerialException (e : exn) : bool :=
  match e with SerialException => true | _ => false end.

Definition is_KeyboardInterrupt (e : exn) : bool :=
  match e with KeyboardInterrupt => true | _ => false end.

(** What a call into pySerial or [time] gives back. *)
Inductive result (A : Type) :=
  | Ok (a : A)
  | Err (e : exn).
Arguments Ok {A} a.
Arguments Err {A} e.

(** What a method of [AmsDevice] does: return a value, raise, or keep
    looping after the fuel of the model is spent. *)
Inductive outcome (A : Type) :=
  | Val (a : A)
  | Raise (e : exn)
  | Diverge.
Arguments Val {A} a.
Arguments Raise {A} e.
Arguments Diverge {A}.

(** State and exception monad over a state [S]. *)
Definition M (S A : Type) : Type := S -> outcome A * S.

Definition ret {S A} (a : A) : M S A := fun s => (Val a, s).
Definition raise {S A} (e : exn) : M S A := fun s => (Raise e, s).
Definition bind {S A B} (m : M S A) (k : A -> M S B) : M S B :=
  fun s =>
    match m s with
    | (Val a, s') => k a s'
    | (Raise e, s') => (Raise e, s')
    | (Diverge, s') => (Diverge, s')
    end.

#[global] Instance M_ret {S} : MRet (M S) := @ret S.
#[global] Instance M_bind {S} : MBind (M S) := fun A B k m => bind m k.

(** Python truth values of the objects the program tests with [if]. *)
Definition truthy_bytes (r : option (list Z)) : bool :=
  match r with
  | Some (_ :: _) => true
  | _ => false
  end.

Definition truthy (r : option bool) : bool :=
  match r with
  | Some true => true
  | _ => false
  end.

(** ** The environment: the serial port and the clock *)

(** The calls into pySerial and [time] the program makes. Opening the
    port, writing, querying [in_waiting], reading and sleeping may raise;
    reading the clock and closing the port do not. *)
Class World (W : Type) := {
  serial_open : W -> result unit * W;
  serial_close : W -> W;
  serial_write : list Z -> W -> result unit * W;
  serial_in_waiting : W -> result Z * W;
  serial_read : Z -> W -> result (list Z) * W;
  time_time : W -> Z * W;
  time_sleep : Z -> W -> result unit * W
}.

(** The calls observed from outside, in order. *)
Inductive action :=
  | AOpen
  | AClose
  | AWrite (frame : list Z)
  | AInWaiting
  | ARead (n : Z)
  | ATime
  | ASleep (ms : Z)
  | APrint (msg : string).

(** The object held by [self.serialPort] once the port was opened. *)
Inductive Serial := SerialObject.

(** An [AmsDevice] instance together with the world it talks to. *)
Record AmsDevice (W : Type) := mkAms {
  isConnected : bool;
  serialPort : option Serial;
  world : W;
  log : list action
}.
Arguments mkAms {W}.
Arguments isConnected {W}.
Arguments serialPort {W}.
Arguments world {W}.
Arguments log {W}.

(** [__init__]: not connected, no port object. *)
Definition init {W} (w : W) : AmsDevice W :=
  mkAms false None w [].

Definition default_timeout : Z := 3000.
Definition poll_interval : Z := 100.
Definition presence_bytes : list Z := [12; 0; 129; 200; 65; 77; 83; 50].

(** The wall-clock fields [sync_time] reads from [datetime.now()] and
    [time.localtime()]. *)
Record localtime := mkLocal {
  year : Z; month : Z; day : Z; hour : Z; minute : Z; second : Z;
  tm_isdst : Z; weekday : Z
}.

(** The lists [b] of [get_parameter_from_device] and [send_command]. *)
Definition parameter_packet (par : Z) : list Z := [8; 0; 1; par].
Definition command_packet (com : Z) : list Z := [8; 0; 11; com].

(** ** The methods of [AmsDevice] *)

Section Device.
Context {W : Type} `{World W}.

Definition record (a : action) (s : AmsDevice W) : AmsDevice W :=
  mkAms (isConnected s) (serialPort s) (world s) (log s ++ [a]).

Definition set_world (w : W) (s : AmsDevice W) : AmsDevice W :=
  mkAms (isConnected s) (serialPort s) w (log s).

Definition set_port (p : option Serial) (s : AmsDevice W) : AmsDevice W :=
  mkAms (isConnected s) p (world s) (log s).

Definition set_connected (b : bool) (s : AmsDevice W) : AmsDevice W :=
  mkAms b (serialPort s) (world s) (log s).

Definition modify (f : AmsDevice W -> AmsDevice W) : M (AmsDevice W) unit :=
  fun s => (Val tt, f s).

Definition print (msg : string) : M (AmsDevice W) unit :=
  fun s => (Val tt, record (APrint msg) s).

(** A call [self.serialPort.f(...)]: an [AttributeError] when
    [self.serialPort] is [None]. *)
Definition port_call {A} (a : action) (f : W -> result A * W)
  : M (AmsDevice W) A :=
  fun s =>
    match serialPort s with
    | None => (Raise AttributeError, s)
    | Some _ =>
        let (r, w') := f (world s) in
        let s' := record a (set_world w' s) in
        match r with
        | Ok x => (Val x, s')
        | Err e => (Raise e, s')
        end
    end.

(** [time.time()] *)
Definition clock (s : AmsDevice W) : Z * AmsDevice W :=
  let (t, w') := time_time (world s) in (t, record ATime (set_world w' s)).

Definition get_time : M (AmsDevice W) Z :=
  fun s => let (t, s') := clock s in (Val t, s').

(** [time.sleep(ms)] *)
Definition sleep (ms : Z) : M (AmsDevice W) unit :=
  fun s =>
    let (r, w') := time_sleep ms (world s) in
    let s' := record (ASleep ms) (set_world w' s) in
    match r with
    | Ok x => (Val x, s')
    | Err e => (Raise e, s')
    end.

(** [try: m except <the classes handler accepts>: ...] *)
Definition try_except {S A} (m : M S A) (handler : exn -> option (M S A))
  : M S A :=
  fun s =>
    match m s with
    | (Raise e, s') =>
        match handler e with
        | Some h => h s'
        | None => (Raise e, s')
        end
    | r => r
    end.

Definition send_packet (packet : list Z) : M (AmsDevice W) unit :=
  match Codec.build_frame packet with
  | None => raise ValueError
  | Some byte_packet =>
      try_except
        (port_call (AWrite byte_packet) (serial_write byte_packet))
        (fun e =>
           if is_SerialException e then
             Some (print "Serial port exception")
           else if is_Exception e then
             Some (print "Exception occurred while sending packet")
           else None)
  end.

(** Running a method inside a frame that also holds the local variable
    [data_received]. *)
Definition zoom {L A} (m : M (AmsDevice W) A) : M (AmsDevice W * L) A :=
  fun sl =>
    let (r, s') := m (fst sl) in (r, (s', snd sl)).

(** [data_received = data] *)
Definition assign (data : list Z)
  : M (AmsDevice W * option (list Z)) unit :=
  fun sl => (Val tt, (fst sl, Some data)).

(** The [while True] loop of [receive_packet], the body of its [try]. *)
Fixpoint poll (fuel : nat) (end_time : Z)
  : M (AmsDevice W * option (list Z)) unit :=
  match fuel with
  | O => fun sl => (Diverge, sl)
  | S fuel' =>
      now ← zoom get_time;
      if end_time <? now then
        zoom (print "Timeout exceeded, exiting receive mode...")
      else
        n ← zoom (port_call AInWaiting serial_in_waiting);
        if 0 <? n then
          m ← zoom (port_call AInWaiting serial_in_waiting);
          data ← zoom (port_call (ARead m) (serial_read m));
          assign data
        else
          zoom (sleep poll_interval);;
          poll fuel' end_time
  end.

(** [receive_packet]: the deadline is computed before the [try]; the
    [finally: return data_received] ends every path through the [try],
    whether it finished or raised. *)
Definition receive_packet (fuel : nat) (timeout : Z)
  : M (AmsDevice W) (option (list Z)) :=
  fun s =>
    let (t0, s0) := clock s in
    let end_time := t0 + timeout in
    match poll fuel end_time (s0, None) with
    | (Val _, (s1, data_received)) => (Val data_received, s1)
    | (Raise e, (s1, data_received)) =>
        if is_KeyboardInterrupt e then
          (Val data_received, record (APrint "Exiting receive mode...") s1)
        else (Val data_received, s1)
    | (Diverge, (s1, _)) => (Diverge, s1)
    end.

Definition get_parameter_from_device (fuel : nat) (par : Z)
  : M (AmsDevice W) (option (list Z)) :=
  send_packet (parameter_packet par);;
  receive_packet fuel default_timeout.

(** The decision of [is_device_present] on what was received: [True] on
    the expected prefix; otherwise the method runs off its end. *)
Definition presence_result (data : option (list Z)) : option bool :=
  if truthy_bytes data then
    match data with
    | Some d =>
        if decide (take 8 d = presence_bytes) then Some true else None
    | None => None
    end
  else None.

(** [is_device_present]: the bare [except] turns any exception into
    [False]. *)
Definition is_device_present (fuel : nat) : M (AmsDevice W) (option bool) :=
  fun s =>
    match get_parameter_from_device fuel 200 s with
    | (Val data, s') => (Val (presence_result data), s')
    | (Raise _, s') => (Val (Some false), s')
    | (Diverge, s') => (Diverge, s')
    end.

Definition disconnect : M (AmsDevice W) unit :=
  (fun s =>
     match serialPort s with
     | Some _ =>
         modify (fun s => record AClose (set_world (serial_close (world s)) s)) s
     | None => ret tt s
     end);;
  modify (set_connected false).

Definition connect (fuel : nat) : M (AmsDevice W) bool :=
  fun s =>
    let (r, w') := serial_open (world s) in
    let s0 := record AOpen (set_world w' s) in
    match r with
    | Err e =>
        if is_SerialException e then
          let failed : M (AmsDevice W) bool :=
            print "Error occured while trying to open port";; ret false in
          failed s0
        else (Raise e, s0)
    | Ok _ =>
        let opened : M (AmsDevice W) bool :=
          r ← is_device_present fuel;
          if truthy r then
            modify (set_connected true);; ret true
          else
            disconnect;; ret false in
        opened (set_port (Some SerialObject) s0)
    end.

Definition send_command (fuel : nat) (com : Z) : M (AmsDevice W) bool :=
  send_packet (command_packet com);;
  r ← receive_packet fuel default_timeout;
  ret (truthy_bytes r).

(** [start_recording] and [stop_recording] call [send_command] and have
    no [return] statement. *)
Definition start_recording (fuel : nat) : M (AmsDevice W) (option bool) :=
  send_command fuel 5;; ret None.

Definition stop_recording (fuel : nat) : M (AmsDevice W) (option bool) :=
  send_command fuel 6;; ret None.

Definition time_array (dt : localtime) : list Z :=
  [year dt - 1900; month dt - 1; day dt; hour dt; minute dt; second dt;
   tm_isdst dt; weekday dt + 1].

Definition sync_packet (dt : localtime) : list Z :=
  [8 + Z.of_nat (length (time_array dt)); 0; 6; 0] ++ time_array dt.

Definition sync_time (fuel : nat) (dt : localtime) : M (AmsDevice W) bool :=
  send_packet (sync_packet dt);;
  r ← receive_packet fuel default_timeout;
  ret (match r with Some _ => true | None => false end).

Definition send_marker (s : list Z) : M (AmsDevice W) unit :=
  match Marker.marker_packet s with
  | None => raise IndexError
  | Some b => send_packet b
  end.

End Device.

(** ** A simulated bridge and device *)

(** A small world to run the methods in: the clock advances by exactly
    the time slept, a write makes the device queue [answer] for reading,
    and the run can be given a port that does not open, a failing
    [in_waiting], or an interrupt after a number of sleeps. *)
Module Sim.

Record world := mk {
  now : Z;
  port_open : bool;
  openable : bool;
  inbox : list Z;
  answer : list Z;
  interrupt_in : option nat;
  in_waiting_error : option exn
}.

Definition open (w : world) : result unit * world :=
  if openable w then
    (Ok tt, mk (now w) true (openable w) (inbox w) (answer w)
               (interrupt_in w) (in_waiting_error w))
  else (Err SerialException, w).

Definition close (w : world) : world :=
  mk (now w) false (openable w) (inbox w) (answer w)
     (interrupt_in w) (in_waiting_error w).

Definition write (frame : list Z) (w : world) : result unit * world :=
  if port_open w then
    (Ok tt, mk (now w) true (openable w) (inbox w ++ answer w) (answer w)
               (interrupt_in w) (in_waiting_error w))
  else (Err SerialException, w).

Definition in_waiting (w : world) : result Z * world :=
  match in_waiting_error w with
  | Some e => (Err e, w)
  | None => (Ok (Z.of_nat (length (inbox w))), w)
  end.

Definition read (n : Z) (w : world) : result (list Z) * world :=
  (Ok (take (Z.to_nat n) (inbox w)),
   mk (now w) (port_open w) (openable w) (drop (Z.to_nat n) (inbox w))
      (answer w) (interrupt_in w) (in_waiting_error w)).

Definition time (w : world) : Z * world := (now w, w).

Definition sleep (ms : Z) (w : world) : result unit * world :=
  match interrupt_in w with
  | Some O =>
      (Err KeyboardInterrupt,
       mk (now w) (port_open w) (openable w) (inbox w) (answer w)
          None (in_waiting_error w))
  | Some (S k) =>
      (Ok tt, mk (now w + ms) (port_open w) (openable w) (inbox w)
                 (answer w) (Some k) (in_waiting_error w))
  | None =>
      (Ok tt, mk (now w + ms) (port_open w) (openable w) (inbox w)
                 (answer w) None (in_waiting_error w))
  end.

#[global] Instance sim_world : World world := {
  serial_open := open;
  serial_close := close;
  serial_write := write;
  serial_in_waiting := in_waiting;
  serial_read := read;
  time_time := time;
  time_sleep := sleep
}.

(** A device that stays silent, at clock [t0], the port not yet open. *)
Definition silent (t0 : Z) : world := mk t0 false true [] [] None None.

(** A device that answers every frame with [bs]. *)
Definition answering (t0 : Z) (bs : list Z) : world :=
  mk t0 false true [] bs None None.

(** The port object of an instance whose port was opened before. *)
Definition opened (w : world) : AmsDevice world :=
  mkAms false (Some SerialObject)
        (mk (now w) true (openable w) (inbox w) (answer w)
            (interrupt_in w) (in_waiting_error w)) [].

End Sim.

(** ** Port discovery: [find_device_port] *)

Module Discovery.

(** The fields of a [ListPortInfo] the search reads. [vid], [pid] and
    [manufacturer] are [None] for a port that is not a USB device. *)
Record ListPortInfo := mkPort {
  device : string;
  description : string;
  vid : option Z;
  pid : option Z;
  manufacturer : option string
}.

(** The digits of the [X] presentation type are upper case. *)
Definition hex_upper (c : ascii) : ascii :=
  if Ascii.eqb c "a" then "A"%char
  else if Ascii.eqb c "b" then "B"%char
  else if Ascii.eqb c "c" then "C"%char
  else if Ascii.eqb c "d" then "D"%char
  else if Ascii.eqb c "e" then "E"%char
  else if Ascii.eqb c "f" then "F"%char
  else c.

Fixpoint map_string (f : ascii -> ascii) (s : string) : string :=
  match s with
  | EmptyString => EmptyString
  | String c s' => String (f c) (map_string f s')
  end.

Fixpoint zeros (n : nat) : string :=
  match n with
  | O => EmptyString
  | S n' => String "0" (zeros n')
  end.

(** [f"{v:04X}"] for an integer [v]: upper-case hexadecimal digits of
    the magnitude, padded with zeros after the sign to a total width of
    four. *)
Definition format_04X (v : Z) : string :=
  let digits :=
    map_string hex_upper
      (HexadecimalString.NilZero.string_of_uint (N.to_hex_uint (Z.abs_N v))) in
  if v <? 0 then
    String "-" (String.append (zeros (3 - String.length digits)) digits)
  else String.append (zeros (4 - String.length digits)) digits.

(** The condition of the [if] on one port, [None] standing for the
    [TypeError] that formatting a missing [vid] or [pid] raises. *)
Definition matches (port : ListPortInfo) : option bool :=
  match vid port, pid port with
  | Some v, Some p =>
      let vid_hex := format_04X v in
      let pid_hex := format_04X p in
      Some (String.eqb (description port)
              (String.append "USB Serial Port ("
                 (String.append (device port) ")"))
            && String.eqb vid_hex "0403"
            && String.eqb pid_hex "6001"
            && match manufacturer port with
               | Some m => String.eqb m "FTDI"
               | None => false
               end)
  | _, _ => None
  end.

(** The loop over [list_ports.comports()]: a port whose inspection
    raises is passed over by the bare [except]. *)
Fixpoint find_device_port (ports : list ListPortInfo) : option string :=
  match ports with
  | [] => None
  | port :: rest =>
      match matches port with
      | Some true => Some (device port)
      | Some false => find_device_port rest
      | None => find_device_port rest
      end
  end.

(** The same test with the identifiers compared as integers, the form
    the source keeps in a comment: 1027 and 24577. *)
Definition is_bridge (port : ListPortInfo) : bool :=
  String.eqb (description port)
    (String.append "USB Serial Port (" (String.append (device port) ")"))
  && bool_decide (vid port = Some 1027)
  && bool_decide (pid port = Some 24577)
  && bool_decide (manufacturer port = Some "FTDI"%string).

End Discovery.

(** ** Status and label queries *)

(** What a query can raise: one of the exceptions above, or the
    [KeyError] of a failed dictionary lookup with its key. *)
Inductive raised :=
  | Builtin (e : exn)
  | KeyError (key : Z).

Inductive xoutcome (A : Type) :=
  | XVal (a : A)
  | XRaise (r : raised)
  | XDiverge.
Arguments XVal {A} a.
Arguments XRaise {A} r.
Arguments XDiverge {A}.

Definition widen {A} (o : outcome A) : xoutcome A :=
  match o with
  | Val a => XVal a
  | Raise e => XRaise (Builtin e)
  | Diverge => XDiverge
  end.

(** The class attribute [status_labels]. *)
Definition status_labels : gmap Z string :=
  list_to_map
    [(1, "No Memory"); (2, "Close Cover"); (3, "Idle"); (4, "Recording");
     (5, "Memory Full"); (6, "Battery Low")]%string.

(** What [get_device_status] returns besides [None]: the status byte, or
    its label. *)
Inductive status_value :=
  | StatusCode (status : Z)
  | StatusLabel (text : string).

(** [str(n)] for an integer. *)
Definition str_int (n : Z) : string :=
  DecimalString.NilZero.string_of_int (Z.to_int n).

Section Queries.
Context {W : Type} `{World W}.

Definition get_device_status (fuel : nat) (as_string : bool) (s : AmsDevice W)
  : xoutcome (option status_value) * AmsDevice W :=
  match get_parameter_from_device fuel 100 s with
  | (Val None, s') => (XVal None, s')
  | (Val (Some data), s') =>
      match data !! 4%nat with
      | None => (XRaise (Builtin IndexError), s')
      | Some status =>
          if negb as_string then (XVal (Some (StatusCode status)), s')
          else
            match status_labels !! status with
            | Some text => (XVal (Some (StatusLabel text)), s')
            | None => (XRaise (KeyError status), s')
            end
      end
  | (Raise e, s') => (XRaise (Builtin e), s')
  | (Diverge, s') => (XDiverge, s')
  end.

Definition get_device_label (fuel : nat) (s : AmsDevice W)
  : xoutcome (option string) * AmsDevice W :=
  match get_parameter_from_device fuel 202 s with
  | (Val None, s') => (XVal None, s')
  | (Val (Some data), s') =>
      match data !! 4%nat with
      | None => (XRaise (Builtin IndexError), s')
      | Some b => (XVal (Some (str_int b)), s')
      end
  | (Raise e, s') => (XRaise (Builtin e), s')
  | (Diverge, s') => (XDiverge, s')
  end.

End Queries.

(** ** The command line: [main] *)

(** The namespace [parse_args] returns. *)
Record Args := mkArgs {
  args_port : option string;
  args_device_present : bool;
  args_label : bool;
  args_status : bool;
  args_status_integer : bool;
  args_sync_time : bool;
  args_start_recording : bool;
  args_stop_recording : bool;
  args_send_marker : option (list Z)
}.

(** How [main] ends: [exit(code)], an exception that leaves it, or a
    loop still running when the fuel of the model is spent. *)
Inductive main_outcome :=
  | Exited (code : Z)
  | Crashed (e : exn)
  | Hung.

(** [str] of the values [main] prints. *)
Definition str_bool (r : option bool) : string :=
  match r with
  | Some true => "True"
  | Some false => "False"
  | None => "None"
  end.

Definition str_label (r : option string) : string :=
  match r with
  | Some text => text
  | None => "None"
  end.

Definition str_status (r : option status_value) : string :=
  match r with
  | Some (StatusCode n) => str_int n
  | Some (StatusLabel text) => text
  | None => "None"
  end.

(** Truth of an optional string or list: [None] and the empty value are
    false. *)
Definition nonempty_string (r : option string) : bool :=
  match r with
  | Some (String _ _) => true
  | _ => false
  end.

Definition nonempty_marker (r : option (list Z)) : bool :=
  match r with
  | Some (_ :: _) => true
  | _ => false
  end.

Section Main.
Context {W : Type} `{World W}.

(** [print(f'{port},{value}')] after a call that returned [value]. *)
Definition print_result {A} (port : string) (render : A -> string)
    (r : xoutcome A * AmsDevice W) : xoutcome unit * AmsDevice W :=
  match r with
  | (XVal a, s') =>
      (XVal tt,
       record (APrint (String.append port (String.append "," (render a)))) s')
  | (XRaise e, s') => (XRaise e, s')
  | (XDiverge, s') => (XDiverge, s')
  end.

Definition discard {A} (r : outcome A * AmsDevice W)
  : xoutcome unit * AmsDevice W :=
  match r with
  | (Val _, s') => (XVal tt, s')
  | (Raise e, s') => (XRaise (Builtin e), s')
  | (Diverge, s') => (XDiverge, s')
  end.

(** The [if] / [elif] chain inside the [try] of [main]. *)
Definition operation (args : Args) (port : string) (dt : localtime)
    (fuel : nat) (s : AmsDevice W) : xoutcome unit * AmsDevice W :=
  if args_device_present args then
    print_result port str_bool
      (let (r, s') := is_device_present fuel s in (widen r, s'))
  else if args_label args then
    print_result port str_label (get_device_label fuel s)
  else if args_status args then
    print_result port str_status (get_device_status fuel true s)
  else if args_status_integer args then
    print_result port str_status (get_device_status fuel false s)
  else if args_sync_time args then
    discard (sync_time fuel dt s)
  else if args_start_recording args then
    discard (start_recording fuel s)
  else if args_stop_recording args then
    discard (stop_recording fuel s)
  else if nonempty_marker (args_send_marker args) then
    match args_send_marker args with
    | Some marker => discard (send_marker marker s)
    | None => (XVal tt, s)
    end
  else (XVal tt, s).

(** [main] after [parse_args]: [ports] is what [list_ports.comports()]
    lists, [dt] the local time read by [sync_time], [w] the world at the
    start. The [finally] clause disconnects and calls [exit(0)], which
    takes the place of whatever the [try] raised. *)
Definition main (args : Args) (ports : list Discovery.ListPortInfo)
    (dt : localtime) (fuel : nat) (w : W) : main_outcome * AmsDevice W :=
  let port :=
    if nonempty_string (args_port args) then args_port args
    else Discovery.find_device_port ports in
  match port with
  | Some (String c name) =>
      match connect fuel (init w) with
      | (Val true, s1) =>
          match operation args (String c name) dt fuel s1 with
          | (XDiverge, s2) => (Hung, s2)
          | (_, s2) =>
              match disconnect s2 with
              | (Val _, s3) => (Exited 0, s3)
              | (Raise e, s3) => (Crashed e, s3)
              | (Diverge, s3) => (Hung, s3)
              end
          end
      | (Val false, s1) =>
          (Exited 1, record (APrint "Failed to connect to the device.") s1)
      | (Raise e, s1) => (Crashed e, s1)
      | (Diverge, s1) => (Hung, s1)
      end
  | _ =>
      (Exited 1,
       record (APrint "Could not find a compatible device port automatically.")
              (init w))
  end.

End Main.

(** ** Vocabulary of the statements *)

(** Reading a decimal text back as an integer. *)
Definition int_of_str (text : string) : option Z :=
  option_map Z.of_int (DecimalString.NilZero.int_of_string text).

(** The labels in the order of their status codes 1 to 6. *)
Definition label_table : list string :=
  ["No Memory"; "Close Cover"; "Idle"; "Recording"; "Memory Full";
   "Battery Low"]%string.

(** The first twenty entries of the marker list. *)
Definition marker_prefix : list Z :=
  [56; 0; 14; 0; 3; 0; 48; 0; 17; 17; 17; 17; 1; 0; 0; 0; 4; 0; 0; 0].

(** A packet whose first entry, as a byte, is the length of the frame
    sent for it, the four checksum bytes included. *)
Definition declares_total_length (packet : list Z) : Prop :=
  exists frame,
    Codec.build_frame packet = Some frame /\
    length frame = (length packet + 4)%nat /\
    frame !! 0%nat = Some (Z.of_nat (length frame)).

(** The number a list of bytes denotes, least significant byte first. *)
Definition little_endian (bs : list Z) : Z :=
  fold_right (fun b acc => b + 256 * acc) 0 bs.

(** Calls other than opening and closing the port. *)
Definition keeps_port (a : action) : bool :=
  match a with
  | AOpen | AClose => false
  | _ => true
  end.

(** The calls [send_marker] may make: a write, and a message. *)
Definition write_or_print (a : action) : bool :=
  match a with
  | AWrite _ | APrint _ => true
  | _ => false
  end.

Section Vocabulary.
Context {W : Type} `{World W}.

(** [s'] has the log of [s] followed by calls that all satisfy [P]. *)
Definition appends (P : action -> bool) (s s' : AmsDevice W) : Prop :=
  exists delta, log s' = log s ++ delta /\ forallb P delta = true.

(** The fields of the object itself, which only [connect] and
    [disconnect] assign. *)
Definition same_object (s s' : AmsDevice W) : Prop :=
  isConnected s' = isConnected s /\ serialPort s' = serialPort s.

(** [n] turns of the loop in which the deadline [end_time] has not
    passed, nothing is waiting and the sleep returns: the world after
    them, or [None] when some turn is not of that kind. *)
Fixpoint quiet_rounds (end_time : Z) (n : nat) (w : W) : option W :=
  match n with
  | O => Some w
  | S n' =>
      let (t, w1) := time_time w in
      if end_time <? t then None
      else
        match serial_in_waiting w1 with
        | (Ok k, w2) =>
            if 0 <? k then None
            else
              match time_sleep poll_interval w2 with
              | (Ok _, w3) => quiet_rounds end_time n' w3
              | (Err _, _) => None
              end
        | (Err _, _) => None
        end
  end.

(** The calls of [n] such turns. *)
Fixpoint rounds_log (n : nat) : list action :=
  match n with
  | O => []
  | S n' => [ATime; AInWaiting; ASleep 100] ++ rounds_log n'
  end.

(** [s'] is [s] after calls that neither open nor close the port, with
    the fields of the object as they were. *)
Definition undisturbed (s s' : AmsDevice W) : Prop :=
  same_object s s' /\ appends keeps_port s s'.

End Vocabulary.

(** * Properties *)

(** ** The packet codec *)

Example crc32_check_value :
  Crc.crc32 [49; 50; 51; 52; 53; 54; 55; 56; 57] = 0xCBF43926.
Proof. vm_compute. reflexivity. Qed.

Lemma normalize_mod (p : Z) : Codec.normalize p = p mod 256.
Proof.
  unfold Codec.normalize.
  replace (p + 256) with (p + 1 * 256) by lia.
  apply Z_mod_plus_full.
Qed.

Lemma normalize_range (p : Z) : 0 <= Codec.normalize p < 256.
Proof. unfold Codec.normalize. apply Z.mod_pos_bound. lia. Qed.

Lemma bytearray_in_range (l : list Z) :
  Forall (fun x => 0 <= x < 256) l -> Codec.bytearray l = Some l.
Proof.
  intros Hl. unfold Codec.bytearray.
  replace (forallb _ l) with true; [reflexivity|].
  symmetry. apply forallb_forall. intros x Hx.
  rewrite Forall_forall in Hl. apply list_elem_of_In, Hl in Hx.
  apply andb_true_intro. split; [apply Z.leb_le | apply Z.ltb_lt]; lia.
Qed.

Lemma land_255_range (x : Z) : 0 <= Z.land x 0xFF < 256.
Proof.
  change 0xFF with (Z.ones 8). rewrite Z.land_ones by lia.
  apply Z.mod_pos_bound. reflexivity.
Qed.

Lemma crc_bytes_in_range (c : Z) :
  Forall (fun x => 0 <= x < 256) (Codec.crc_bytes c).
Proof.
  unfold Codec.crc_bytes. cbn [map].
  repeat (constructor; [apply land_255_range|]). constructor.
Qed.

(** The frame in closed form: the normalized input followed by the four
    bytes [(crc >> (8 * i)) & 0xFF] for [i = 0, 1, 2, 3]. *)
Lemma build_frame_eq (packet : list Z) :
  Codec.build_frame packet =
  Some (map Codec.normalize packet ++
        Codec.crc_bytes
          (Z.land (Crc.crc32 (map Codec.normalize packet)) 0xFFFFFFFF)).
Proof.
  unfold Codec.build_frame.
  rewrite bytearray_in_range.
  - rewrite bytearray_in_range by apply crc_bytes_in_range. reflexivity.
  - apply Forall_forall. intros x Hx.
    apply list_elem_of_In, in_map_iff in Hx as (p & <- & _).
    apply normalize_range.
Qed.

Lemma build_frame_length (packet frame : list Z) :
  Codec.build_frame packet = Some frame ->
  length frame = (length packet + 4)%nat.
Proof.
  rewrite build_frame_eq. intros [= <-].
  rewrite length_app, length_map. reflexivity.
Qed.

(** C1 (at the packet [8, 0, 1, 200], whose CRC-32 is 0x68548C30): the
    frame has the input length plus four bytes, but its last four bytes
    are the checksum with the least significant byte first (48, 140, 84,
    104), not most significant byte first (104, 84, 140, 48). *)
Theorem send_packet_crc_byte_order :
  Crc.crc32 [8; 0; 1; 200] = 0x68548C30 /\
  Codec.build_frame [8; 0; 1; 200] = Some [8; 0; 1; 200; 48; 140; 84; 104] /\
  Codec.big_endian_bytes (Crc.crc32 [8; 0; 1; 200]) = [104; 84; 140; 48] /\
  Codec.build_frame [8; 0; 1; 200] <>
    Some ([8; 0; 1; 200] ++
          Codec.big_endian_bytes (Crc.crc32 [8; 0; 1; 200])).
Proof.
  repeat split; try (vm_compute; reflexivity).
  vm_compute. intros [=].
Qed.

(** For every packet the checksum bytes come out least significant
    first: byte [i] of the trailer is bits [8i .. 8i+7] of the CRC. *)
Lemma build_frame_trailer (packet frame : list Z) (i : nat) :
  Codec.build_frame packet = Some frame ->
  (i < 4)%nat ->
  frame !! (length packet + i)%nat =
  Some (Z.land (Z.shiftr (Crc.crc32 (map Codec.normalize packet))
                         (8 * Z.of_nat i)) 0xFF).
Proof.
  rewrite build_frame_eq. intros [= <-] Hi.
  rewrite lookup_app_r by (rewrite length_map; lia).
  rewrite length_map.
  replace (length packet + i - length packet)%nat with i by lia.
  assert (Hm : forall j, 0 <= j < 4 ->
    Z.land (Z.shiftr (Z.land (Crc.crc32 (map Codec.normalize packet))
                             0xFFFFFFFF) (8 * j)) 0xFF =
    Z.land (Z.shiftr (Crc.crc32 (map Codec.normalize packet)) (8 * j)) 0xFF).
  { intros j Hj. apply Z.bits_inj'. intros n Hn.
    change 0xFF with (Z.ones 8). change 0xFFFFFFFF with (Z.ones 32).
    rewrite !Z.land_spec, !Z.shiftr_spec, Z.land_spec by lia.
    destruct (Z.ltb_spec n 8) as [Hlt|Hge].
    - rewrite (Z.ones_spec_low 32) by lia. rewrite andb_true_r. reflexivity.
    - rewrite (Z.ones_spec_high 8) by lia. rewrite !andb_false_r.
      reflexivity. }
  unfold Codec.crc_bytes.
  destruct i as [|[|[|[|i]]]]; try lia; cbn [map lookup list_lookup];
    simpl; rewrite Hm by lia; reflexivity.
Qed.

(** C8: [(p + 256) % 256] is [p mod 256], a value in 0..255, for every
    integer [p]; hence the codec accepts every list of integers, and the
    frame starts with the input reduced modulo 256. *)
Theorem send_packet_wraps_modulo_256 (p : Z) (packet : list Z) :
  Codec.normalize p = p mod 256 /\
  0 <= Codec.normalize p < 256 /\
  Codec.bytearray (map Codec.normalize packet) =
    Some (map (fun q => q mod 256) packet) /\
  exists frame,
    Codec.build_frame packet = Some frame /\
    take (length packet) frame = map (fun q => q mod 256) packet.
Proof.
  assert (Hmap : map Codec.normalize packet = map (fun q => q mod 256) packet).
  { apply map_ext. intros q. apply normalize_mod. }
  split; [apply normalize_mod|].
  split; [apply normalize_range|].
  split.
  - rewrite <- Hmap. apply bytearray_in_range.
    apply Forall_forall. intros x Hx.
    apply list_elem_of_In, in_map_iff in Hx as (q & <- & _).
    apply normalize_range.
  - eexists. split; [apply build_frame_eq|].
    rewrite take_app_length' by (rewrite length_map; reflexivity).
    exact Hmap.
Qed.

Example normalize_negative : Codec.normalize (-1) = 255.
Proof. reflexivity. Qed.

Example normalize_large : Codec.normalize 300 = 44.
Proof. reflexivity. Qed.

(** ** The marker frame *)

Lemma marker_text_eq (s : list Z) :
  Marker.marker_text s =
  map (fun c => if (c <? 128) && negb (c =? 63) then c else 95) (take 32 s).
Proof.
  unfold Marker.marker_text, Marker.replace_qmark, Marker.decode,
    Marker.encode_ascii_replace, Marker.truncate.
  rewrite map_map. apply map_ext. intros c.
  destruct (c <? 128) eqn:Hc; cbn [andb negb].
  - destruct (c =? 63); reflexivity.
  - reflexivity.
Qed.

Lemma lookup_map {A B} (f : A -> B) (l : list A) (i : nat) :
  map f l !! i = f <$> l !! i.
Proof.
  revert i. induction l as [|a l IH]; intros [|i]; cbn; auto.
Qed.

Lemma marker_text_length (s : list Z) :
  length (Marker.marker_text s) = Nat.min 32 (length s).
Proof. rewrite marker_text_eq, length_map, length_take. reflexivity. Qed.

Lemma setitem_Some (b : list Z) (j : nat) (v : Z) :
  (j < length b)%nat -> Marker.setitem b j v = Some (<[j:=v]> b).
Proof. intros Hj. unfold Marker.setitem. rewrite decide_True; done. Qed.

(** The loop writes the characters from position [k] on and leaves the
    rest of [b] alone. *)
Lemma fill_spec (t : list Z) (n k : nat) (b : list Z) :
  (k + n = length t)%nat ->
  (20 + length t <= length b)%nat ->
  Marker.fill t (seq (20 + k) n) b =
  Some (take (20 + k) b ++ drop k t ++ drop (20 + length t) b).
Proof.
  revert k b. induction n as [|n IH]; intros k b Hk Hb.
  - cbn [seq Marker.fill]. f_equal.
    replace k with (length t) by lia.
    rewrite drop_all. cbn [app]. symmetry. apply take_drop.
  - cbn [seq Marker.fill].
    replace (20 + k - 20)%nat with k by lia.
    destruct (lookup_lt_is_Some_2 t k) as [c Hc]; [lia|].
    rewrite Hc. cbn [mbind option_bind].
    rewrite setitem_Some by lia. cbn [mbind option_bind].
    replace (S (20 + k)) with (20 + S k)%nat by lia.
    rewrite IH by (rewrite ?length_insert; lia).
    f_equal.
    replace (20 + S k)%nat with (S (20 + k)) by lia.
    rewrite (take_S_r _ _ c) by (apply list_lookup_insert_eq; lia).
    rewrite take_insert_ge by lia.
    rewrite drop_insert_lt by lia.
    rewrite (drop_S t c k Hc).
    rewrite <- app_assoc. reflexivity.
Qed.

Lemma marker_header_eq :
  Marker.marker_header = Some (marker_prefix ++ replicate 32 0).
Proof. reflexivity. Qed.

(** The marker list in closed form. *)
Lemma marker_packet_eq (s : list Z) :
  Marker.marker_packet s =
  Some (marker_prefix ++ Marker.marker_text s ++
        replicate (32 - length (Marker.marker_text s)) 0).
Proof.
  unfold Marker.marker_packet. rewrite marker_header_eq.
  cbn [mbind option_bind].
  pose proof (marker_text_length s) as Hlen.
  set (t := Marker.marker_text s) in *.
  rewrite (fill_spec t (length t) 0) by
    (rewrite ?length_app, ?length_replicate; cbn [marker_prefix length]; lia).
  f_equal.
  rewrite take_app_length' by reflexivity.
  rewrite drop_0.
  rewrite drop_app_ge by (cbn [marker_prefix length]; lia).
  cbn [marker_prefix length].
  replace (20 + length t - 20)%nat with (length t) by lia.
  rewrite drop_replicate. reflexivity.
Qed.

Example marker_forty_characters :
  Marker.marker_packet (map Z.of_nat (seq 65 40)) =
  Some (marker_prefix ++ map Z.of_nat (seq 65 32)).
Proof. vm_compute. reflexivity. Qed.

Example marker_non_ascii :
  Marker.marker_text [97; 233; 8364; 98] = [97; 95; 95; 98].
Proof. reflexivity. Qed.

(** C7, as stated, fails on the marker ["?"]: the text the claim
    describes keeps the question mark (63) while the frame holds an
    underscore (95) at index 20. *)
Lemma send_marker_question_mark_differs :
  ~ (forall b i c,
       Marker.marker_packet [63] = Some b ->
       Marker.spec_marker_text [63] !! i = Some c ->
       b !! (20 + i)%nat = Some c).
Proof.
  intros Hclaim.
  specialize (Hclaim _ 0%nat 63 eq_refl eq_refl).
  vm_compute in Hclaim. discriminate Hclaim.
Qed.

(** C7 (amended): for every marker string [send_marker] builds a list of
    52 entries; the processed text is the first 32 characters with every
    non-ASCII character and every question mark replaced by an
    underscore; its character codes sit at index 20 onward, every other
    entry from index 20 is zero, the header constants hold their values
    and the remaining header entries are zero. *)
Theorem send_marker_frame_layout (s : list Z) :
  exists b,
    Marker.marker_packet s = Some b /\
    length b = 52%nat /\
    Marker.marker_text s =
      map (fun c => if (c <? 128) && negb (c =? 63) then c else 95)
          (take 32 s) /\
    length (Marker.marker_text s) = Nat.min 32 (length s) /\
    drop 20 b =
      Marker.marker_text s ++
      replicate (32 - length (Marker.marker_text s)) 0 /\
    (forall i c,
        Marker.marker_text s !! i = Some c -> b !! (20 + i)%nat = Some c) /\
    (forall j,
        (20 + length (Marker.marker_text s) <= j < 52)%nat ->
        b !! j = Some 0) /\
    (forall j v, In (j, v) Marker.header_constants -> b !! j = Some v) /\
    (forall j,
        (j < 20)%nat -> ~ In j (map fst Marker.header_constants) ->
        b !! j = Some 0).
Proof.
  pose proof (marker_text_length s) as Hlen.
  eexists. split; [apply marker_packet_eq|].
  set (t := Marker.marker_text s) in *.
  split.
  { rewrite !length_app, length_replicate. cbn [marker_prefix length]. lia. }
  split; [apply marker_text_eq|].
  split; [exact Hlen|].
  split.
  { rewrite drop_app_length' by reflexivity. reflexivity. }
  split.
  { intros i c Hi.
    rewrite lookup_app_r by (cbn [marker_prefix length]; lia).
    cbn [marker_prefix length].
    replace (20 + i - 20)%nat with i by lia.
    apply lookup_app_l_Some. exact Hi. }
  split.
  { intros j Hj.
    rewrite lookup_app_r by (cbn [marker_prefix length]; lia).
    rewrite lookup_app_r by (cbn [marker_prefix length]; lia).
    apply lookup_replicate_2. cbn [marker_prefix length]. lia. }
  split.
  { intros j v Hin.
    cbn [Marker.header_constants In] in Hin.
    repeat (destruct Hin as [[= <- <-]|Hin]; [reflexivity|]).
    destruct Hin. }
  intros j Hj Hnot.
  rewrite lookup_app_l by (cbn [marker_prefix length]; lia).
  cbn [Marker.header_constants map fst In] in Hnot.
  do 20 (destruct j as [|j]; [first [reflexivity | exfalso; apply Hnot; tauto]|]).
  lia.
Qed.

(** C10: a question mark in the first 32 characters of the marker text
    reaches the frame as an underscore. *)
Theorem send_marker_replaces_question_mark (s : list Z) (i : nat) :
  take 32 s !! i = Some 63 ->
  exists b,
    Marker.marker_packet s = Some b /\
    Marker.marker_text s !! i = Some 95 /\
    b !! (20 + i)%nat = Some 95.
Proof.
  intros Hq.
  assert (Ht : Marker.marker_text s !! i = Some 95).
  { rewrite marker_text_eq, lookup_map, Hq. reflexivity. }
  eexists. split; [apply marker_packet_eq|]. split; [exact Ht|].
  rewrite lookup_app_r by (cbn [marker_prefix length]; lia).
  cbn [marker_prefix length].
  replace (20 + i - 20)%nat with i by lia.
  apply lookup_app_l_Some. exact Ht.
Qed.

(** The marker ["a?b"]: index 21 of the frame holds an underscore. *)
Lemma send_marker_replaces_question_mark_witness :
  exists b,
    Marker.marker_packet [97; 63; 98] = Some b /\
    Marker.marker_text [97; 63; 98] !! 1%nat = Some 95 /\
    b !! 21%nat = Some 95.
Proof.
  apply (send_marker_replaces_question_mark [97; 63; 98] 1). reflexivity.
Defined.

(** ** The declared length byte *)

(** C4, as stated, fails on the presence request [8, 0, 1, 200]: the
    first byte is 8 while four bytes precede the checksum. *)
Lemma length_byte_is_not_payload_count :
  ~ (forall frame,
       Codec.build_frame (parameter_packet 200) = Some frame ->
       frame !! 0%nat = Some (Z.of_nat (length frame - 4))).
Proof.
  intros Hclaim.
  assert (Hframe : Codec.build_frame (parameter_packet 200) =
                   Some [8; 0; 1; 200; 48; 140; 84; 104])
    by (vm_compute; reflexivity).
  specialize (Hclaim _ Hframe).
  vm_compute in Hclaim. discriminate Hclaim.
Qed.

(** C4 (amended): in every frame built by [get_parameter_from_device],
    [sync_time] and [send_marker] the first byte equals the length of the
    whole frame, which is the count of bytes before the checksum plus
    four. *)
Theorem length_byte_counts_checksum (par : Z) (dt : localtime) (s : list Z) :
  declares_total_length (parameter_packet par) /\
  declares_total_length (sync_packet dt) /\
  exists b, Marker.marker_packet s = Some b /\ declares_total_length b.
Proof.
  split; [|split].
  - eexists. split; [apply build_frame_eq|]. split.
    + rewrite length_app, length_map. reflexivity.
    + rewrite length_app, length_map.
      cbn [parameter_packet map app lookup list_lookup length
           Codec.crc_bytes].
      reflexivity.
  - eexists. split; [apply build_frame_eq|]. split.
    + rewrite length_app, length_map. reflexivity.
    + rewrite length_app, length_map.
      cbn [sync_packet time_array map app lookup list_lookup length
           Codec.crc_bytes].
      reflexivity.
  - pose proof (marker_text_length s) as Hlen.
    eexists. split; [apply marker_packet_eq|].
    eexists. split; [apply build_frame_eq|]. split.
    + rewrite length_app, length_map. reflexivity.
    + rewrite !length_app, length_map, !length_app, length_replicate.
      cbn [marker_prefix length Codec.crc_bytes map app lookup list_lookup].
      replace (20 + (length (Marker.marker_text s) +
                     (32 - length (Marker.marker_text s))) + 4)%nat
        with 56%nat by lia.
      reflexivity.
Qed.

(** ** The receive loop *)

Section ReceiveLoop.
Context {W : Type} `{World W}.

(** One turn of the loop, with the monad unfolded. *)
Lemma poll_unfold (fuel : nat) (end_time : Z) (s : AmsDevice W)
    (l : option (list Z)) :
  poll (S fuel) end_time (s, l) =
  let (t, s1) := clock s in
  if end_time <? t then
    (Val tt, (record (APrint "Timeout exceeded, exiting receive mode...") s1, l))
  else
    match port_call AInWaiting serial_in_waiting s1 with
    | (Val n, s2) =>
        if 0 <? n then
          match port_call AInWaiting serial_in_waiting s2 with
          | (Val m, s3) =>
              match port_call (ARead m) (serial_read m) s3 with
              | (Val data, s4) => (Val tt, (s4, Some data))
              | (Raise e, s4) => (Raise e, (s4, l))
              | (Diverge, s4) => (Diverge, (s4, l))
              end
          | (Raise e, s3) => (Raise e, (s3, l))
          | (Diverge, s3) => (Diverge, (s3, l))
          end
        else
          match sleep poll_interval s2 with
          | (Val _, s3) => poll fuel end_time (s3, l)
          | (Raise e, s3) => (Raise e, (s3, l))
          | (Diverge, s3) => (Diverge, (s3, l))
          end
    | (Raise e, s2) => (Raise e, (s2, l))
    | (Diverge, s2) => (Diverge, (s2, l))
    end.
Proof.
  cbn [poll]. unfold mbind, M_bind, bind, zoom, get_time, print, assign.
  cbn [fst snd].
  destruct (clock s) as [t s1]. cbn [fst snd].
  destruct (end_time <? t); [reflexivity|]. cbn [fst snd].
  destruct (port_call AInWaiting serial_in_waiting s1) as [[n|e|] s2];
    try reflexivity.
  destruct (0 <? n); cbn [fst snd].
  - destruct (port_call AInWaiting serial_in_waiting s2) as [[m|e|] s3];
      try reflexivity.
    cbn [fst snd].
    destruct (port_call (ARead m) (serial_read m) s3) as [[d|e|] s4];
      reflexivity.
  - destruct (sleep poll_interval s2) as [[[]|e|] s3]; reflexivity.
Qed.

Lemma same_object_refl (s : AmsDevice W) : same_object s s.
Proof. split; reflexivity. Qed.

Lemma same_object_trans (s1 s2 s3 : AmsDevice W) :
  same_object s1 s2 -> same_object s2 s3 -> same_object s1 s3.
Proof. intros [? ?] [? ?]. split; congruence. Qed.

Lemma clock_same (s s1 : AmsDevice W) (t : Z) :
  clock s = (t, s1) -> same_object s s1.
Proof.
  unfold clock. destruct (time_time (world s)). intros [= _ <-].
  split; reflexivity.
Qed.

Lemma port_call_same {A} (a : action) (f : W -> result A * W)
    (s s1 : AmsDevice W) (r : outcome A) :
  port_call a f s = (r, s1) -> same_object s s1.
Proof.
  unfold port_call. destruct (serialPort s).
  - destruct (f (world s)) as [[x|e] w']; intros [= _ <-]; split; reflexivity.
  - intros [= _ <-]. apply same_object_refl.
Qed.

Lemma sleep_same (ms : Z) (s s1 : AmsDevice W) (r : outcome unit) :
  sleep ms s = (r, s1) -> same_object s s1.
Proof.
  unfold sleep. destruct (time_sleep ms (world s)) as [[x|e] w'];
    intros [= _ <-]; split; reflexivity.
Qed.

Lemma record_same (a : action) (s : AmsDevice W) : same_object s (record a s).
Proof. split; reflexivity. Qed.

(** Case analysis on one turn of the loop. *)
Ltac poll_cases H :=
  rewrite poll_unfold in H;
  repeat match type of H with
    | context [clock ?s] =>
        let E := fresh "Eclock" in destruct (clock s) as [? ?] eqn:E
    | context [if ?b then _ else _] =>
        let E := fresh "Eif" in destruct b eqn:E
    | context [port_call ?a ?f ?s] =>
        let E := fresh "Ecall" in
        destruct (port_call a f s) as [[?|?|] ?] eqn:E
    | context [sleep ?ms ?s] =>
        let E := fresh "Esleep" in
        destruct (sleep ms s) as [[?|?|] ?] eqn:E
    end.

Lemma poll_same (fuel : nat) (end_time : Z) (s s' : AmsDevice W)
    (l l' : option (list Z)) (r : outcome unit) :
  poll fuel end_time (s, l) = (r, (s', l')) -> same_object s s'.
Proof.
  revert s l. induction fuel as [|fuel IH]; intros s l Hrun.
  - injection Hrun as _ <- _. apply same_object_refl.
  - poll_cases Hrun;
      try (injection Hrun as _ <- _);
      repeat match goal with
        | E : clock _ = _ |- _ => apply clock_same in E
        | E : port_call _ _ _ = _ |- _ => apply port_call_same in E
        | E : sleep _ _ = _ |- _ => apply sleep_same in E
        end;
      try apply IH in Hrun;
      eauto 8 using same_object_trans, record_same.
Qed.

(** [data_received] is assigned only on the way out of the loop: when the
    loop raises, the variable still holds what it held on entry. *)
Lemma poll_raise_keeps_local (fuel : nat) (end_time : Z) (s s' : AmsDevice W)
    (l l' : option (list Z)) (e : exn) :
  poll fuel end_time (s, l) = (Raise e, (s', l')) -> l' = l.
Proof.
  revert s. induction fuel as [|fuel IH]; intros s Hrun.
  - discriminate Hrun.
  - poll_cases Hrun; try discriminate Hrun;
      try (injection Hrun as _ _ <-; reflexivity).
    eapply IH, Hrun.
Qed.

(** [receive_packet] never raises. *)
Lemma receive_packet_no_raise (fuel : nat) (timeout : Z) (s : AmsDevice W)
    (e : exn) :
  fst (receive_packet fuel timeout s) <> Raise e.
Proof.
  unfold receive_packet. destruct (clock s) as [t0 s0].
  destruct (poll fuel (t0 + timeout) (s0, None)) as [[[]|e'|] [s1 d]];
    cbn [fst]; try discriminate.
  destruct (is_KeyboardInterrupt e'); discriminate.
Qed.

Lemma receive_packet_same (fuel : nat) (timeout : Z) (s s' : AmsDevice W)
    (r : outcome (option (list Z))) :
  receive_packet fuel timeout s = (r, s') -> same_object s s'.
Proof.
  unfold receive_packet. destruct (clock s) as [t0 s0] eqn:Eclock.
  apply clock_same in Eclock.
  destruct (poll fuel (t0 + timeout) (s0, None)) as [[[]|e'|] [s1 d]] eqn:Erun;
    apply poll_same in Erun.
  - intros [= _ <-]. eauto using same_object_trans.
  - destruct (is_KeyboardInterrupt e'); intros [= _ <-];
      eauto using same_object_trans, record_same.
  - intros [= _ <-]. eauto using same_object_trans.
Qed.

(** C9: [receive_packet] never raises; whenever the loop in its [try]
    block raises an exception, of any class and from any of the calls it
    makes, the call returns [None]. *)
Theorem receive_packet_discards_exceptions (fuel : nat) (timeout : Z)
    (s : AmsDevice W) :
  (forall e, fst (receive_packet fuel timeout s) <> Raise e) /\
  (forall e sl,
      poll fuel (fst (clock s) + timeout) (snd (clock s), None)
        = (Raise e, sl) ->
      fst (receive_packet fuel timeout s) = Val None).
Proof.
  split; [intros e; apply receive_packet_no_raise|].
  intros e sl Hraise.
  unfold receive_packet. destruct (clock s) as [t0 s0]. cbn [fst snd] in Hraise.
  rewrite Hraise. destruct sl as [s1 d].
  apply poll_raise_keeps_local in Hraise. subst d.
  destruct (is_KeyboardInterrupt e); reflexivity.
Qed.

(** Quiet turns of the loop only add their calls to the log. *)
Lemma poll_quiet (n fuel : nat) (end_time : Z) (s : AmsDevice W)
    (l : option (list Z)) (w' : W) :
  serialPort s = Some SerialObject ->
  quiet_rounds end_time n (world s) = Some w' ->
  poll (n + fuel) end_time (s, l) =
  poll fuel end_time
    (mkAms (isConnected s) (serialPort s) w' (log s ++ rounds_log n), l).
Proof.
  revert s. induction n as [|n IH]; intros s Hport Hquiet.
  - injection Hquiet as <-. cbn [rounds_log Nat.add].
    rewrite app_nil_r. destruct s; reflexivity.
  - cbn [quiet_rounds] in Hquiet.
    destruct (time_time (world s)) as [t w1] eqn:Etime.
    destruct (end_time <? t) eqn:Elate; [discriminate|].
    destruct (serial_in_waiting w1) as [[k|e] w2] eqn:Ewait; [|discriminate].
    destruct (0 <? k) eqn:Ek; [discriminate|].
    destruct (time_sleep poll_interval w2) as [[[]|e] w3] eqn:Esleep;
      [|discriminate].
    cbn [Nat.add]. rewrite poll_unfold.
    unfold clock. rewrite Etime, Elate.
    unfold port_call. cbn [record set_world serialPort world].
    rewrite Hport, Ewait, Ek.
    unfold sleep. cbn [record set_world serialPort world].
    rewrite Esleep.
    rewrite IH by assumption.
    cbn [record set_world isConnected serialPort world log rounds_log].
    rewrite <- !app_assoc, ?Hport. reflexivity.
Qed.

(** C6: after any number of quiet turns (clock within the deadline,
    nothing waiting, a sleep of 100 ms that returns), [receive_packet]
    returns [None] as soon as the clock is past the deadline, and it
    returns [None] as well when the sleep is cut short by a
    [KeyboardInterrupt]; the calls made are the clock read for the
    deadline, then per turn a clock read, an [in_waiting] query and a
    sleep of 100 ms. *)
Theorem receive_packet_poll_loop (fuel n : nat) (timeout : Z)
    (s : AmsDevice W) (w1 : W) :
  serialPort s = Some SerialObject ->
  quiet_rounds (fst (time_time (world s)) + timeout) n
               (snd (time_time (world s))) = Some w1 ->
  (n < fuel)%nat ->
  (forall t w2,
      time_time w1 = (t, w2) ->
      fst (time_time (world s)) + timeout < t ->
      receive_packet fuel timeout s =
      (Val None,
       mkAms (isConnected s) (serialPort s) w2
         (log s ++ [ATime] ++ rounds_log n ++
          [ATime; APrint "Timeout exceeded, exiting receive mode..."]))) /\
  (forall t w2 k w3 w4,
      time_time w1 = (t, w2) ->
      t <= fst (time_time (world s)) + timeout ->
      serial_in_waiting w2 = (Ok k, w3) ->
      k <= 0 ->
      time_sleep 100 w3 = (Err KeyboardInterrupt, w4) ->
      receive_packet fuel timeout s =
      (Val None,
       mkAms (isConnected s) (serialPort s) w4
         (log s ++ [ATime] ++ rounds_log n ++
          [ATime; AInWaiting; ASleep 100;
           APrint "Exiting receive mode..."]))).
Proof.
  intros Hport Hquiet Hfuel.
  destruct fuel as [|fuel]; [lia|].
  replace (S fuel) with (n + S (fuel - n))%nat by lia.
  unfold receive_packet, clock.
  destruct (time_time (world s)) as [t0 w0] eqn:Etime0.
  cbn [fst snd] in *.
  rewrite (poll_quiet n _ _ _ _ w1) by assumption.
  rewrite poll_unfold. unfold clock.
  cbn [record set_world isConnected serialPort world log].
  split.
  - intros t w2 Etime Hlate. rewrite Etime.
    apply Z.ltb_lt in Hlate. rewrite Hlate.
    unfold record, set_world. cbn [isConnected serialPort world log].
    rewrite <- !app_assoc, ?Hport. reflexivity.
  - intros t w2 k w3 w4 Etime Hearly Ewait Hk Esleep. rewrite Etime.
    replace (t0 + timeout <? t) with false by (symmetry; apply Z.ltb_ge; lia).
    unfold port_call. cbn [record set_world isConnected serialPort world log].
    rewrite Hport, Ewait.
    replace (0 <? k) with false by (symmetry; apply Z.ltb_ge; lia).
    unfold sleep, poll_interval.
    cbn [record set_world isConnected serialPort world log].
    rewrite Esleep.
    unfold record, set_world.
    cbn [is_KeyboardInterrupt isConnected serialPort world log].
    rewrite <- !app_assoc, ?Hport. reflexivity.
Qed.

End ReceiveLoop.

(** A silent device with the default deadline: 31 quiet turns, then the
    clock reads 3100 and the loop gives up; and an interrupt in the
    fourth sleep. *)
Lemma receive_packet_poll_loop_witness :
  receive_packet 32 default_timeout (Sim.opened (Sim.silent 0)) =
  (Val None,
   mkAms false (Some SerialObject) (Sim.mk 3100 true true [] [] None None)
     ([] ++ [ATime] ++ rounds_log 31 ++
      [ATime; APrint "Timeout exceeded, exiting receive mode..."])) /\
  receive_packet 32 default_timeout
    (Sim.opened (Sim.mk 0 false true [] [] (Some 3%nat) None)) =
  (Val None,
   mkAms false (Some SerialObject) (Sim.mk 300 true true [] [] None None)
     ([] ++ [ATime] ++ rounds_log 3 ++
      [ATime; AInWaiting; ASleep 100;
       APrint "Exiting receive mode..."])).
Proof.
  split.
  - refine (proj1 (receive_packet_poll_loop 32 31 default_timeout
                     (Sim.opened (Sim.silent 0))
                     (Sim.mk 3100 true true [] [] None None)
                     eq_refl _ _) 3100 _ eq_refl _).
    + vm_compute. reflexivity.
    + lia.
    + reflexivity.
  - refine (proj2 (receive_packet_poll_loop 32 3 default_timeout
                     (Sim.opened (Sim.mk 0 false true [] [] (Some 3%nat) None))
                     (Sim.mk 300 true true [] [] (Some 0%nat) None)
                     eq_refl _ _) 300 _ 0 _ _ eq_refl _ eq_refl _ eq_refl).
    + vm_compute. reflexivity.
    + lia.
    + vm_compute. discriminate.
    + lia.
Defined.

(** An [OSError] from [in_waiting] ends in [None]. *)
Lemma receive_packet_discards_exceptions_witness :
  fst (receive_packet 5 default_timeout
         (Sim.opened (Sim.mk 0 false true [] [] None (Some OSError)))) =
  Val None.
Proof.
  refine (proj2 (receive_packet_discards_exceptions 5 default_timeout _)
            OSError _ _).
  vm_compute. reflexivity.
Defined.

(** Each call the loop makes can be the one that raises. *)
Example poll_raises_from_in_waiting :
  fst (poll 5 3000 (Sim.opened (Sim.mk 0 false true [] [] None
                                  (Some SerialException)), None)) =
  Raise SerialException.
Proof. vm_compute. reflexivity. Qed.

Example poll_raises_without_port :
  fst (poll 5 3000 (init (Sim.silent 0), None)) = Raise AttributeError.
Proof. vm_compute. reflexivity. Qed.

Example poll_raises_from_sleep :
  fst (poll 5 3000 (Sim.opened (Sim.mk 0 false true [] [] (Some 0%nat) None),
                    None)) =
  Raise KeyboardInterrupt.
Proof. vm_compute. reflexivity. Qed.

(** ** Requests and the presence check *)

Section Requests.
Context {W : Type} `{World W}.

Lemma send_packet_same (packet : list Z) (s s' : AmsDevice W)
    (r : outcome unit) :
  send_packet packet s = (r, s') -> same_object s s'.
Proof.
  unfold send_packet, try_except, raise, print.
  destruct (Codec.build_frame packet) as [frame|].
  - destruct (port_call (AWrite frame) (serial_write frame) s)
      as [[x|e|] s1] eqn:Ecall; apply port_call_same in Ecall.
    + intros [= _ <-]. exact Ecall.
    + destruct (is_SerialException e); [|destruct (is_Exception e)];
        intros [= _ <-];
        eauto using same_object_trans, record_same.
    + intros [= _ <-]. exact Ecall.
  - intros [= _ <-]. apply same_object_refl.
Qed.

Lemma get_parameter_same (fuel : nat) (par : Z) (s s' : AmsDevice W)
    (r : outcome (option (list Z))) :
  get_parameter_from_device fuel par s = (r, s') -> same_object s s'.
Proof.
  unfold get_parameter_from_device, mbind, M_bind, bind.
  destruct (send_packet (parameter_packet par) s) as [[x|e|] s1] eqn:Esend;
    apply send_packet_same in Esend.
  - intros Hrecv. apply receive_packet_same in Hrecv.
    eauto using same_object_trans.
  - intros [= _ <-]. exact Esend.
  - intros [= _ <-]. exact Esend.
Qed.

Lemma is_device_present_same (fuel : nat) (s s' : AmsDevice W)
    (r : outcome (option bool)) :
  is_device_present fuel s = (r, s') -> same_object s s'.
Proof.
  unfold is_device_present.
  destruct (get_parameter_from_device fuel 200 s) as [[x|e|] s1] eqn:Eget;
    apply get_parameter_same in Eget; intros [= _ <-]; exact Eget.
Qed.

(** The decision on the received bytes: [True] exactly on the expected
    prefix, and otherwise [None]; [False] is never the result. *)
Lemma presence_result_spec (data : option (list Z)) :
  presence_result data =
  match data with
  | Some d => if decide (take 8 d = presence_bytes) then Some true else None
  | None => None
  end.
Proof.
  unfold presence_result. destruct data as [[|b d]|]; try reflexivity.
Qed.

Lemma presence_result_true (data : option (list Z)) :
  presence_result data = Some true <->
  exists d, data = Some d /\ take 8 d = presence_bytes.
Proof.
  rewrite presence_result_spec. destruct data as [d|].
  - destruct (decide (take 8 d = presence_bytes)) as [Heq|Hne].
    + split; [eauto|reflexivity].
    + split; [discriminate|]. intros (d' & [= <-] & Heq). contradiction.
  - split; [discriminate|]. intros (d' & [=] & _).
Qed.

Lemma presence_result_never_false (data : option (list Z)) :
  presence_result data <> Some false.
Proof.
  rewrite presence_result_spec. destruct data as [d|]; [|discriminate].
  destruct (decide (take 8 d = presence_bytes)); discriminate.
Qed.

End Requests.

(** C2 (evaluated): on a reply that is too short, on a reply with a
    differing prefix and on no reply at all, [is_device_present] returns
    [None], not [False]; on the expected prefix it returns [True]. *)
Theorem is_device_present_falls_through :
  fst (is_device_present 40
         (Sim.opened (Sim.answering 0 [12; 0; 129; 200; 65; 77; 83]))) =
    Val None /\
  fst (is_device_present 40
         (Sim.opened (Sim.answering 0 [0; 0; 129; 200; 65; 77; 83; 50]))) =
    Val None /\
  fst (is_device_present 40 (Sim.opened (Sim.silent 0))) = Val None /\
  fst (is_device_present 40
         (Sim.opened (Sim.answering 0 (presence_bytes ++ [7; 7])))) =
    Val (Some true).
Proof. repeat split; vm_compute; reflexivity. Qed.

(** ** Recording commands *)

Lemma start_recording_result {W : Type} `{World W} (fuel : nat)
    (s s' : AmsDevice W) (r : option bool) :
  start_recording fuel s = (Val r, s') -> r = None.
Proof.
  unfold start_recording, mbind, M_bind, bind, ret.
  destruct (send_command fuel 5 s) as [[b|e|] s1]; intros [=]; congruence.
Qed.

Lemma stop_recording_result {W : Type} `{World W} (fuel : nat)
    (s s' : AmsDevice W) (r : option bool) :
  stop_recording fuel s = (Val r, s') -> r = None.
Proof.
  unfold stop_recording, mbind, M_bind, bind, ret.
  destruct (send_command fuel 6 s) as [[b|e|] s1]; intros [=]; congruence.
Qed.

(** C3 (evaluated): with a device that answers at once, [send_command]
    returns [True] for both commands and the frames written are
    [8, 0, 11, 5] and [8, 0, 11, 6] with their checksums, but
    [start_recording] and [stop_recording] return [None]. *)
Theorem start_recording_returns_none :
  fst (send_command 40 5 (Sim.opened (Sim.answering 0 [1; 2; 3]))) =
    Val true /\
  fst (start_recording 40 (Sim.opened (Sim.answering 0 [1; 2; 3]))) =
    Val None /\
  fst (stop_recording 40 (Sim.opened (Sim.answering 0 [1; 2; 3]))) =
    Val None /\
  log (snd (start_recording 40 (Sim.opened (Sim.answering 0 [1; 2; 3])))) !!
    0%nat = Some (AWrite [8; 0; 11; 5; 183; 218; 110; 119]) /\
  log (snd (stop_recording 40 (Sim.opened (Sim.answering 0 [1; 2; 3])))) !!
    0%nat = Some (AWrite [8; 0; 11; 6; 13; 139; 103; 238]).
Proof. repeat split; vm_compute; reflexivity. Qed.

(** ** Connecting *)

Section Connect.
Context {W : Type} `{World W}.

(** C5: when the port opens and the presence check does not return
    [True], [connect] returns [False], has closed the port as its last
    call and leaves [isConnected] false; and an instance that was not
    connected is connected after [connect] only if the port opened, the
    presence check that followed returned [True] and [connect] returned
    [True]. *)
Theorem connect_requires_presence (fuel : nat) (s : AmsDevice W) :
  (forall w1 r s2,
      serial_open (world s) = (Ok tt, w1) ->
      is_device_present fuel
        (set_port (Some SerialObject) (record AOpen (set_world w1 s)))
        = (Val r, s2) ->
      r <> Some true ->
      connect fuel s =
      (Val false,
       mkAms false (Some SerialObject) (serial_close (world s2))
             (log s2 ++ [AClose]))) /\
  (forall b s',
      isConnected s = false ->
      connect fuel s = (b, s') ->
      isConnected s' = true ->
      b = Val true /\
      exists w1 s2,
        serial_open (world s) = (Ok tt, w1) /\
        is_device_present fuel
          (set_port (Some SerialObject) (record AOpen (set_world w1 s)))
          = (Val (Some true), s2) /\
        s' = set_connected true s2).
Proof.
  split.
  - intros w1 r s2 Hopen Hpresent Hr.
    unfold connect. rewrite Hopen.
    unfold mbind, M_bind, bind. rewrite Hpresent.
    replace (truthy r) with false by (destruct r as [[|]|]; cbn; congruence).
    apply is_device_present_same in Hpresent as [_ Hport].
    cbn [set_port serialPort] in Hport.
    unfold disconnect, mbind, M_bind, bind, modify, ret.
    rewrite Hport.
    unfold set_connected, record, set_world.
    cbn [isConnected serialPort world log]. rewrite Hport. reflexivity.
  - intros b s' Hoff Hrun Hon.
    unfold connect in Hrun.
    destruct (serial_open (world s)) as [[[]|e] w1] eqn:Hopen.
    + unfold mbind, M_bind, bind in Hrun.
      destruct (is_device_present fuel
                  (set_port (Some SerialObject)
                     (record AOpen (set_world w1 s))))
        as [[r|e|] s2] eqn:Hpresent.
      * destruct (truthy r) eqn:Hr.
        -- unfold modify, ret in Hrun. injection Hrun as <- <-.
           split; [reflexivity|].
           exists w1, s2. destruct r as [[|]|]; try discriminate Hr.
           auto.
        -- unfold disconnect, mbind, M_bind, bind, modify, ret in Hrun.
           destruct (serialPort s2); injection Hrun as _ <-;
             discriminate Hon.
      * injection Hrun as _ <-.
        apply is_device_present_same in Hpresent as [Hc _].
        cbn [set_port record set_world isConnected] in Hc. congruence.
      * injection Hrun as _ <-.
        apply is_device_present_same in Hpresent as [Hc _].
        cbn [set_port record set_world isConnected] in Hc. congruence.
    + destruct (is_SerialException e).
      * unfold mbind, M_bind, bind, print, ret in Hrun.
        injection Hrun as _ <-.
        cbn [record set_world isConnected] in Hon. congruence.
      * injection Hrun as _ <-.
        cbn [record set_world isConnected] in Hon. congruence.
Qed.

End Connect.

(** A port that opens on a silent device: [connect] fails after the
    deadline and the port is closed again. *)
Lemma connect_requires_presence_witness :
  connect 40 (init (Sim.silent 1000)) =
  (Val false,
   mkAms false (Some SerialObject)
     (Sim.mk 4100 false true [] [] None None)
     (([AOpen; AWrite [8; 0; 1; 200; 48; 140; 84; 104]; ATime] ++
       rounds_log 31 ++
       [ATime; APrint "Timeout exceeded, exiting receive mode..."]) ++
      [AClose])).
Proof.
  refine (proj1 (connect_requires_presence 40 (init (Sim.silent 1000)))
            (Sim.mk 1000 true true [] [] None None) None
            (mkAms false (Some SerialObject)
               (Sim.mk 4100 true true [] [] None None)
               ([AOpen; AWrite [8; 0; 1; 200; 48; 140; 84; 104]; ATime] ++
                rounds_log 31 ++
                [ATime; APrint "Timeout exceeded, exiting receive mode..."]))
            eq_refl _ _).
  - vm_compute. reflexivity.
  - discriminate.
Defined.

Example connect_present_device :
  fst (connect 40 (init (Sim.answering 0 presence_bytes))) = Val true /\
  isConnected (snd (connect 40 (init (Sim.answering 0 presence_bytes)))) =
    true.
Proof. split; vm_compute; reflexivity. Qed.

Example connect_port_unavailable :
  fst (connect 40 (init (Sim.mk 0 false false [] [] None None))) = Val false /\
  isConnected (snd (connect 40 (init (Sim.mk 0 false false [] [] None None))))
    = false.
Proof. split; vm_compute; reflexivity. Qed.

(** ** Port discovery *)

Example format_04X_samples :
  Discovery.format_04X 1027 = "0403"%string /\
  Discovery.format_04X 24577 = "6001"%string /\
  Discovery.format_04X 0 = "0000"%string /\
  Discovery.format_04X 43981 = "ABCD"%string /\
  Discovery.format_04X 1000000 = "F4240"%string /\
  Discovery.format_04X (-5) = "-005"%string.
Proof. repeat split; vm_compute; reflexivity. Qed.

(** Upper-casing produces a decimal digit only from that digit. *)
Lemma hex_upper_digit (c d : ascii) :
  Discovery.hex_upper c = d ->
  (Ascii.leb "0" d && Ascii.leb d "9")%char = true ->
  c = d.
Proof.
  intros <-.
  destruct c as [[|] [|] [|] [|] [|] [|] [|] [|]];
    vm_compute; intros Hd; first [reflexivity | discriminate Hd].
Qed.

(** A string of hexadecimal digits that reads as [t] denotes the number
    [t] parses to. *)
Lemma hex_string_value (n : N) (t : string) (u : Hexadecimal.uint) :
  HexadecimalString.NilZero.string_of_uint (N.to_hex_uint n) = t ->
  HexadecimalString.NilZero.uint_of_string t = Some u ->
  n = N.of_hex_uint u.
Proof.
  intros Hs Hu. subst t.
  destruct (HexadecimalString.NilZero.usu_gen (N.to_hex_uint n)) as [Hg|Hg];
    rewrite Hg in Hu; injection Hu as <-.
  - symmetry. apply HexadecimalN.Unsigned.of_to.
  - destruct (N.to_hex_uint n) eqn:En;
      try (rewrite HexadecimalString.NilZero.usu in Hg by discriminate;
           injection Hg as Hg; rewrite Hg in En;
           rewrite <- (HexadecimalN.Unsigned.of_to n), En; reflexivity).
    rewrite <- (HexadecimalN.Unsigned.of_to n), En. reflexivity.
Qed.

Lemma format_04X_vid (v : Z) :
  Discovery.format_04X v = "0403"%string <-> v = 1027.
Proof.
  split; [|intros ->; vm_compute; reflexivity].
  unfold Discovery.format_04X.
  destruct (v <? 0) eqn:Hneg; [discriminate|].
  apply Z.ltb_ge in Hneg.
  set (raw := HexadecimalString.NilZero.string_of_uint
                (N.to_hex_uint (Z.abs_N v))).
  assert (Hraw : HexadecimalString.NilZero.string_of_uint
                   (N.to_hex_uint (Z.abs_N v)) = raw) by reflexivity.
  clearbody raw.
  intros Hfmt.
  assert (Hcase : Discovery.map_string Discovery.hex_upper raw = "403"%string
                  \/ Discovery.map_string Discovery.hex_upper raw
                     = "0403"%string).
  { destruct (Discovery.map_string Discovery.hex_upper raw)
      as [|c1 [|c2 [|c3 [|c4 [|c5 d]]]]];
      cbn in Hfmt; try discriminate Hfmt; injection Hfmt; intros; subst;
      auto. }
  assert (Hn : Z.abs_N v = 1027%N).
  { destruct Hcase as [Hup|Hup].
    - assert (raw = "403"%string) as ->.
      { destruct raw as [|c1 [|c2 [|c3 [|c4 r]]]];
          cbn [Discovery.map_string] in Hup; try discriminate Hup.
        injection Hup as H1 H2 H3.
        apply hex_upper_digit in H1, H2, H3; try reflexivity.
        subst. reflexivity. }
      exact (hex_string_value _ _ _ Hraw eq_refl).
    - assert (raw = "0403"%string) as ->.
      { destruct raw as [|c1 [|c2 [|c3 [|c4 [|c5 r]]]]];
          cbn [Discovery.map_string] in Hup; try discriminate Hup.
        injection Hup as H1 H2 H3 H4.
        apply hex_upper_digit in H1, H2, H3, H4; try reflexivity.
        subst. reflexivity. }
      exact (hex_string_value _ _ _ Hraw eq_refl). }
  lia.
Qed.

Lemma format_04X_pid (v : Z) :
  Discovery.format_04X v = "6001"%string <-> v = 24577.
Proof.
  split; [|intros ->; vm_compute; reflexivity].
  unfold Discovery.format_04X.
  destruct (v <? 0) eqn:Hneg; [discriminate|].
  apply Z.ltb_ge in Hneg.
  set (raw := HexadecimalString.NilZero.string_of_uint
                (N.to_hex_uint (Z.abs_N v))).
  assert (Hraw : HexadecimalString.NilZero.string_of_uint
                   (N.to_hex_uint (Z.abs_N v)) = raw) by reflexivity.
  clearbody raw.
  intros Hfmt.
  assert (Hup : Discovery.map_string Discovery.hex_upper raw = "6001"%string).
  { destruct (Discovery.map_string Discovery.hex_upper raw)
      as [|c1 [|c2 [|c3 [|c4 [|c5 d]]]]];
      cbn in Hfmt; try discriminate Hfmt; injection Hfmt; intros; subst;
      auto. }
  assert (Hn : Z.abs_N v = 24577%N).
  { assert (raw = "6001"%string) as ->.
    { destruct raw as [|c1 [|c2 [|c3 [|c4 [|c5 r]]]]];
        cbn [Discovery.map_string] in Hup; try discriminate Hup.
      injection Hup as H1 H2 H3 H4.
      apply hex_upper_digit in H1, H2, H3, H4; try reflexivity.
      subst. reflexivity. }
    exact (hex_string_value _ _ _ Hraw eq_refl). }
  lia.
Qed.

(** X2: the comparison of the formatted identifiers with ["0403"] and
    ["6001"] is the comparison of the integers with 1027 and 24577, for
    every integer. *)
Theorem hex_identifiers_are_1027_and_24577 (v : Z) :
  (Discovery.format_04X v = "0403"%string <-> v = 1027) /\
  (Discovery.format_04X v = "6001"%string <-> v = 24577).
Proof. split; [apply format_04X_vid | apply format_04X_pid]. Qed.

Lemma matches_is_bridge (port : Discovery.ListPortInfo) :
  Discovery.is_bridge port =
  match Discovery.matches port with
  | Some b => b
  | None => false
  end.
Proof.
  unfold Discovery.is_bridge, Discovery.matches.
  destruct (Discovery.vid port) as [v|], (Discovery.pid port) as [q|];
    cbn zeta.
  - f_equal; [f_equal; [f_equal|]|].
    + destruct (String.eqb_spec (Discovery.format_04X v) "0403") as [Hv|Hv].
      * apply format_04X_vid in Hv. subst. reflexivity.
      * apply bool_decide_eq_false. intros [= ->]. apply Hv.
        apply format_04X_vid. reflexivity.
    + destruct (String.eqb_spec (Discovery.format_04X q) "6001") as [Hq|Hq].
      * apply format_04X_pid in Hq. subst. reflexivity.
      * apply bool_decide_eq_false. intros [= ->]. apply Hq.
        apply format_04X_pid. reflexivity.
    + destruct (Discovery.manufacturer port) as [m|].
      * destruct (String.eqb_spec m "FTDI") as [->|Hm].
        -- reflexivity.
        -- apply bool_decide_eq_false. congruence.
      * reflexivity.
  - rewrite andb_false_r. reflexivity.
  - rewrite andb_false_r. reflexivity.
  - rewrite andb_false_r. reflexivity.
Qed.

(** X1: [find_device_port] returns the device name of the first listed
    port whose description is ["USB Serial Port (<device>)"], whose
    vendor and product identifiers are 1027 and 24577 and whose
    manufacturer is ["FTDI"]; ports without identifiers are passed over;
    it returns [None] when no port is of that kind. *)
Theorem find_device_port_first_bridge (ports : list Discovery.ListPortInfo) :
  Discovery.find_device_port ports =
  option_map Discovery.device (List.find Discovery.is_bridge ports).
Proof.
  induction ports as [|port rest IH]; [reflexivity|].
  cbn [Discovery.find_device_port List.find].
  rewrite matches_is_bridge.
  destruct (Discovery.matches port) as [[|]|]; cbn [option_map]; auto.
Qed.

Lemma find_device_port_none (ports : list Discovery.ListPortInfo) :
  Forall (fun port => Discovery.is_bridge port = false) ports ->
  Discovery.find_device_port ports = None.
Proof.
  induction 1 as [|port rest Hport _ IH]; [reflexivity|].
  cbn [Discovery.find_device_port].
  rewrite matches_is_bridge in Hport.
  destruct (Discovery.matches port) as [[|]|]; first [discriminate | exact IH].
Qed.


(** ** Status and label queries *)

Lemma status_labels_lookup (status : Z) :
  status_labels !! status =
  if decide (1 <= status <= 6) then
    label_table !! Z.to_nat (status - 1)
  else None.
Proof.
  unfold status_labels. cbn [list_to_map foldr fst snd].
  destruct (decide (1 <= status <= 6)) as [Hin|Hout].
  - assert (Hcases : status = 1 \/ status = 2 \/ status = 3 \/ status = 4 \/
                     status = 5 \/ status = 6) by lia.
    destruct Hcases as [->|[->|[->|[->|[->| ->]]]]]; vm_compute; reflexivity.
  - rewrite !lookup_insert_ne by lia. apply lookup_empty.
Qed.

Lemma str_int_round_trip (n : Z) : int_of_str (str_int n) = Some n.
Proof.
  unfold int_of_str, str_int.
  rewrite DecimalString.NilZero.isi.
  - cbn [option_map]. f_equal. apply DecimalZ.of_to.
  - destruct n; cbn [Z.to_int]; try discriminate.
    intros [= Hnil]. exact (DecimalPos.Unsigned.to_uint_nonnil _ Hnil).
  - destruct n; cbn [Z.to_int]; try discriminate.
    intros [= Hnil]. exact (DecimalPos.Unsigned.to_uint_nonnil _ Hnil).
Qed.

Section QueryProperties.
Context {W : Type} `{World W}.

(** X3: given what the request for parameter 100 returned,
    [get_device_status()] returns [None] on no data, raises [IndexError]
    on a reply of fewer than five bytes (an empty one included) and
    otherwise returns the byte at index 4, whatever its value. *)
Theorem get_device_status_integer (fuel : nat) (s s' : AmsDevice W)
    (data : option (list Z)) :
  get_parameter_from_device fuel 100 s = (Val data, s') ->
  get_device_status fuel false s =
  (match data with
   | None => XVal None
   | Some d =>
       if decide (length d <= 4)%nat then XRaise (Builtin IndexError)
       else XVal (Some (StatusCode (nth 4 d 0)))
   end, s').
Proof.
  intros Hget. unfold get_device_status. rewrite Hget.
  destruct data as [d|]; [|reflexivity].
  destruct (decide (length d <= 4)%nat) as [Hshort|Hlong].
  - rewrite (lookup_ge_None_2 d 4) by lia. reflexivity.
  - destruct (lookup_lt_is_Some_2 d 4) as [b Hb]; [lia|].
    rewrite Hb. cbn [negb]. do 3 f_equal.
    apply nth_lookup_Some with (d := 0) in Hb. congruence.
Qed.

(** X4: [get_device_status(True)] on a reply with status byte [status]
    at index 4 returns the label of [status] when it is one of 1 to 6
    and raises [KeyError(status)] for every other byte. *)
Theorem get_device_status_label (fuel : nat) (s s' : AmsDevice W)
    (d : list Z) (status : Z) :
  get_parameter_from_device fuel 100 s = (Val (Some d), s') ->
  d !! 4%nat = Some status ->
  get_device_status fuel true s =
  (if decide (1 <= status <= 6) then
     XVal (Some (StatusLabel (nth (Z.to_nat (status - 1)) label_table EmptyString)))
   else XRaise (KeyError status), s').
Proof.
  intros Hget Hstatus. unfold get_device_status.
  rewrite Hget, Hstatus. cbn [negb].
  rewrite status_labels_lookup.
  destruct (decide (1 <= status <= 6)) as [Hin|Hout]; [|reflexivity].
  destruct (lookup_lt_is_Some_2 label_table (Z.to_nat (status - 1)))
    as [text Htext]; [cbn [label_table length]; lia|].
  rewrite Htext. do 3 f_equal.
  apply nth_lookup_Some with (d := EmptyString) in Htext. congruence.
Qed.

(** X5: given what the request for parameter 202 returned,
    [get_device_label()] returns [None] on no data, raises [IndexError]
    on a reply of fewer than five bytes, and otherwise returns a text
    that reads back, as a decimal number, as the byte at index 4. *)
Theorem get_device_label_decimal (fuel : nat) (s s' : AmsDevice W)
    (data : option (list Z)) :
  get_parameter_from_device fuel 202 s = (Val data, s') ->
  match data with
  | None => get_device_label fuel s = (XVal None, s')
  | Some d =>
      if decide (length d <= 4)%nat then
        get_device_label fuel s = (XRaise (Builtin IndexError), s')
      else
        exists text,
          get_device_label fuel s = (XVal (Some text), s') /\
          int_of_str text = Some (nth 4 d 0)
  end.
Proof.
  intros Hget. unfold get_device_label. rewrite Hget.
  destruct data as [d|]; [|reflexivity].
  destruct (decide (length d <= 4)%nat) as [Hshort|Hlong].
  - rewrite (lookup_ge_None_2 d 4) by lia. reflexivity.
  - destruct (lookup_lt_is_Some_2 d 4) as [b Hb]; [lia|].
    rewrite Hb. exists (str_int b). split; [reflexivity|].
    rewrite str_int_round_trip. f_equal.
    apply nth_lookup_Some with (d := 0) in Hb. congruence.
Qed.

End QueryProperties.

Example status_idle_and_recording :
  fst (get_device_status 40 true
         (Sim.opened (Sim.answering 0 [9; 0; 129; 100; 3]))) =
    XVal (Some (StatusLabel "Idle")) /\
  fst (get_device_status 40 true
         (Sim.opened (Sim.answering 0 [9; 0; 129; 100; 4]))) =
    XVal (Some (StatusLabel "Recording")) /\
  fst (get_device_status 40 true
         (Sim.opened (Sim.answering 0 [9; 0; 129; 100; 0]))) =
    XRaise (KeyError 0) /\
  fst (get_device_status 40 false
         (Sim.opened (Sim.answering 0 [9; 0; 129; 100]))) =
    XRaise (Builtin IndexError).
Proof. repeat split; vm_compute; reflexivity. Qed.


(** ** Sending *)

Section Sending.
Context {W : Type} `{World W}.

Lemma appends_refl (P : action -> bool) (s : AmsDevice W) : appends P s s.
Proof. exists []. split; [symmetry; apply app_nil_r | reflexivity]. Qed.

Lemma appends_trans (P : action -> bool) (s1 s2 s3 : AmsDevice W) :
  appends P s1 s2 -> appends P s2 s3 -> appends P s1 s3.
Proof.
  intros (d1 & H1 & F1) (d2 & H2 & F2). exists (d1 ++ d2). split.
  - rewrite H2, H1, app_assoc. reflexivity.
  - rewrite forallb_app, F1, F2. reflexivity.
Qed.

Lemma appends_record (P : action -> bool) (a : action) (s : AmsDevice W) :
  P a = true -> appends P s (record a s).
Proof.
  intros Ha. exists [a]. split; [reflexivity|]. cbn. rewrite Ha. reflexivity.
Qed.

Lemma port_call_appends {A} (P : action -> bool) (a : action)
    (f : W -> result A * W) (s s1 : AmsDevice W) (r : outcome A) :
  P a = true -> port_call a f s = (r, s1) -> appends P s s1.
Proof.
  intros Ha. unfold port_call. destruct (serialPort s).
  - destruct (f (world s)) as [[x|e] w']; intros [= _ <-];
      apply (appends_record P a (set_world w' s) Ha).
  - intros [= _ <-]. apply appends_refl.
Qed.

(** What [send_packet] does in each case of the write. *)
Lemma send_packet_cases (packet : list Z) (s : AmsDevice W) :
  exists frame,
    Codec.build_frame packet = Some frame /\
    match serialPort s with
    | None =>
        send_packet packet s =
        (Val tt, record (APrint "Exception occurred while sending packet") s)
    | Some _ =>
        match serial_write frame (world s) with
        | (Ok _, w') =>
            send_packet packet s =
            (Val tt, record (AWrite frame) (set_world w' s))
        | (Err e, w') =>
            send_packet packet s =
            (if is_SerialException e then
               (Val tt, record (APrint "Serial port exception")
                          (record (AWrite frame) (set_world w' s)))
             else if is_Exception e then
               (Val tt,
                record (APrint "Exception occurred while sending packet")
                  (record (AWrite frame) (set_world w' s)))
             else (Raise e, record (AWrite frame) (set_world w' s)))
        end
    end.
Proof.
  eexists. split; [apply build_frame_eq|].
  unfold send_packet. rewrite build_frame_eq.
  unfold try_except, port_call, print.
  destruct (serialPort s); [|reflexivity].
  destruct (serial_write _ (world s)) as [[[]|e] w']; [reflexivity|].
  destruct e; reflexivity.
Qed.

Lemma send_packet_raise (packet : list Z) (s s' : AmsDevice W) (e : exn) :
  send_packet packet s = (Raise e, s') ->
  is_Exception e = false /\
  exists frame w',
    Codec.build_frame packet = Some frame /\
    serial_write frame (world s) = (Err e, w').
Proof.
  destruct (send_packet_cases packet s) as (frame & Hframe & Hcases).
  intros Hraise.
  destruct (serialPort s); [|rewrite Hcases in Hraise; discriminate].
  destruct (serial_write frame (world s)) as [[[]|e0] w'] eqn:Hwrite;
    rewrite Hcases in Hraise; [discriminate|].
  destruct (is_SerialException e0); [discriminate|].
  destruct (is_Exception e0) eqn:Hclass; [discriminate|].
  injection Hraise as -> _. split; [exact Hclass|].
  exists frame, w'. split; [exact Hframe | exact Hwrite].
Qed.

(** X6: [send_packet] returns normally whenever the write succeeds or
    fails with an exception of class [Exception], and also when there is
    no port object at all, in which case nothing is written; it raises
    only an exception that the write itself raised and that is not an
    [Exception] (a [KeyboardInterrupt]). *)
Theorem send_packet_contains_write_errors (packet : list Z)
    (s : AmsDevice W) :
  (serialPort s = None ->
   send_packet packet s =
   (Val tt, record (APrint "Exception occurred while sending packet") s)) /\
  (forall e s',
      send_packet packet s = (Raise e, s') ->
      is_Exception e = false /\
      exists frame w',
        Codec.build_frame packet = Some frame /\
        serial_write frame (world s) = (Err e, w')) /\
  fst (send_packet packet s) <> Diverge.
Proof.
  destruct (send_packet_cases packet s) as (frame & Hframe & Hcases).
  split; [|split].
  - intros Hnone. rewrite Hnone in Hcases. exact Hcases.
  - intros e s'. apply send_packet_raise.
  - destruct (serialPort s); [|rewrite Hcases; discriminate].
    destruct (serial_write frame (world s)) as [[[]|e0] w'];
      rewrite Hcases; [discriminate|].
    destruct (is_SerialException e0); [discriminate|].
    destruct (is_Exception e0); discriminate.
Qed.

Lemma send_packet_appends (packet : list Z) (s s' : AmsDevice W)
    (r : outcome unit) :
  send_packet packet s = (r, s') -> appends write_or_print s s'.
Proof.
  destruct (send_packet_cases packet s) as (frame & _ & Hcases).
  destruct (serialPort s).
  - destruct (serial_write frame (world s)) as [[[]|e] w'];
      rewrite Hcases.
    + intros [= _ <-]. apply (appends_record _ _ (set_world w' s)).
      reflexivity.
    + destruct (is_SerialException e); [|destruct (is_Exception e)];
        intros [= _ <-];
        repeat (first
          [ apply (appends_record _ _ (set_world w' s)); reflexivity
          | eapply appends_trans;
            [|apply appends_record; reflexivity] ]).
  - rewrite Hcases. intros [= _ <-]. apply appends_record. reflexivity.
Qed.

(** X7: [send_marker] never polls: for every marker text it builds a
    frame of 56 bytes, and the only calls it makes are at most one
    write, of that frame and first whenever there is a port object, and
    a printed message; it reads no clock, queries no [in_waiting], reads
    and sleeps nothing, and leaves the fields of the object alone. *)
Theorem send_marker_fire_and_forget (marker : list Z) (s : AmsDevice W) :
  exists b frame,
    Marker.marker_packet marker = Some b /\
    Codec.build_frame b = Some frame /\
    length frame = 56%nat /\
    same_object s (snd (send_marker marker s)) /\
    exists delta,
      log (snd (send_marker marker s)) = log s ++ delta /\
      (forall a, In a delta -> a = AWrite frame \/ exists msg, a = APrint msg) /\
      (length delta <= 2)%nat /\
      (serialPort s <> None -> delta !! 0%nat = Some (AWrite frame)).
Proof.
  pose proof (marker_text_length marker) as Hlen.
  eexists. eexists. split; [apply marker_packet_eq|].
  split; [apply build_frame_eq|].
  split.
  { rewrite !length_app, length_map, !length_app, length_replicate.
    cbn [marker_prefix length Codec.crc_bytes map]. lia. }
  unfold send_marker. rewrite marker_packet_eq.
  set (b := marker_prefix ++ _).
  split.
  { destruct (send_packet b s) as [r s'] eqn:Hsend.
    apply send_packet_same in Hsend. exact Hsend. }
  destruct (send_packet_cases b s) as (frame & Hframe & Hcases).
  rewrite build_frame_eq in Hframe. injection Hframe as <-.
  destruct (serialPort s) as [p|] eqn:Hport.
  - destruct (serial_write _ (world s)) as [[[]|e] w'].
    + rewrite Hcases. eexists [_]. split; [reflexivity|].
      split; [|split]; [|cbn; lia|reflexivity].
      intros a [<-|[]]. left. reflexivity.
    + rewrite Hcases.
      destruct (is_SerialException e); [|destruct (is_Exception e)].
      * eexists [_; _]. split; [cbn; rewrite <- app_assoc; reflexivity|].
        split; [|split]; [|cbn; lia|reflexivity].
        intros a [<-|[<-|[]]]; eauto.
      * eexists [_; _]. split; [cbn; rewrite <- app_assoc; reflexivity|].
        split; [|split]; [|cbn; lia|reflexivity].
        intros a [<-|[<-|[]]]; eauto.
      * eexists [_]. split; [reflexivity|].
        split; [|split]; [|cbn; lia|reflexivity].
        intros a [<-|[]]. left. reflexivity.
  - rewrite Hcases. eexists [_]. split; [reflexivity|].
    split; [|split]; [|cbn; lia|congruence].
    intros a [<-|[]]. eauto.
Qed.

End Sending.


(** ** Requests leave the connection alone *)

Section Undisturbed.
Context {W : Type} `{World W}.

Lemma undisturbed_refl (s : AmsDevice W) : undisturbed s s.
Proof. split; [apply same_object_refl | apply appends_refl]. Qed.

Lemma undisturbed_trans (s1 s2 s3 : AmsDevice W) :
  undisturbed s1 s2 -> undisturbed s2 s3 -> undisturbed s1 s3.
Proof.
  intros [? ?] [? ?].
  split; eauto using same_object_trans, appends_trans.
Qed.

Lemma undisturbed_record (a : action) (s : AmsDevice W) :
  keeps_port a = true -> undisturbed s (record a s).
Proof.
  intros Ha. split; [apply record_same | apply appends_record, Ha].
Qed.

Lemma clock_undisturbed (s s1 : AmsDevice W) (t : Z) :
  clock s = (t, s1) -> undisturbed s s1.
Proof.
  intros Hc. split; [eapply clock_same, Hc|].
  unfold clock in Hc. destruct (time_time (world s)) as [t' w'].
  injection Hc as _ <-. apply (appends_record _ _ (set_world w' s)).
  reflexivity.
Qed.

Lemma port_call_undisturbed {A} (a : action) (f : W -> result A * W)
    (s s1 : AmsDevice W) (r : outcome A) :
  keeps_port a = true -> port_call a f s = (r, s1) -> undisturbed s s1.
Proof.
  intros Ha Hc. split; [eapply port_call_same, Hc|].
  eapply port_call_appends; eauto.
Qed.

Lemma sleep_undisturbed (ms : Z) (s s1 : AmsDevice W) (r : outcome unit) :
  sleep ms s = (r, s1) -> undisturbed s s1.
Proof.
  intros Hc. split; [eapply sleep_same, Hc|].
  unfold sleep in Hc. destruct (time_sleep ms (world s)) as [[x|e] w'];
    injection Hc as _ <-; apply (appends_record _ _ (set_world w' s));
    reflexivity.
Qed.

Lemma poll_undisturbed (fuel : nat) (end_time : Z) (s s' : AmsDevice W)
    (l l' : option (list Z)) (r : outcome unit) :
  poll fuel end_time (s, l) = (r, (s', l')) -> undisturbed s s'.
Proof.
  revert s l. induction fuel as [|fuel IH]; intros s l Hrun.
  - injection Hrun as _ <- _. apply undisturbed_refl.
  - rewrite poll_unfold in Hrun.
    destruct (clock s) as [t s1] eqn:Eclock.
    apply clock_undisturbed in Eclock.
    destruct (end_time <? t).
    { injection Hrun as _ <- _.
      eapply undisturbed_trans; [exact Eclock|].
      apply undisturbed_record. reflexivity. }
    destruct (port_call AInWaiting serial_in_waiting s1)
      as [[n|e|] s2] eqn:Ewait;
      apply port_call_undisturbed in Ewait; try reflexivity;
      try (injection Hrun as _ <- _; eauto using undisturbed_trans).
    destruct (0 <? n).
    + destruct (port_call AInWaiting serial_in_waiting s2)
        as [[m|e|] s3] eqn:Ewait2;
        apply port_call_undisturbed in Ewait2; try reflexivity;
        try (injection Hrun as _ <- _; eauto using undisturbed_trans).
      destruct (port_call (ARead m) (serial_read m) s3)
        as [[d|e|] s4] eqn:Eread;
        apply port_call_undisturbed in Eread; try reflexivity;
        injection Hrun as _ <- _; eauto using undisturbed_trans.
    + destruct (sleep poll_interval s2) as [[[]|e|] s3] eqn:Esleep;
        apply sleep_undisturbed in Esleep;
        try (injection Hrun as _ <- _; eauto using undisturbed_trans).
      apply IH in Hrun. eauto using undisturbed_trans.
Qed.

Lemma receive_packet_undisturbed (fuel : nat) (timeout : Z)
    (s s' : AmsDevice W) (r : outcome (option (list Z))) :
  receive_packet fuel timeout s = (r, s') -> undisturbed s s'.
Proof.
  unfold receive_packet. destruct (clock s) as [t0 s0] eqn:Eclock.
  apply clock_undisturbed in Eclock.
  destruct (poll fuel (t0 + timeout) (s0, None)) as [[[]|e'|] [s1 d]] eqn:Erun;
    apply poll_undisturbed in Erun.
  - intros [= _ <-]. eauto using undisturbed_trans.
  - destruct (is_KeyboardInterrupt e'); intros [= _ <-];
      eauto using undisturbed_trans, undisturbed_record.
  - intros [= _ <-]. eauto using undisturbed_trans.
Qed.

Lemma send_packet_undisturbed (packet : list Z) (s s' : AmsDevice W)
    (r : outcome unit) :
  send_packet packet s = (r, s') -> undisturbed s s'.
Proof.
  intros Hsend. split; [eapply send_packet_same, Hsend|].
  apply send_packet_appends in Hsend as (delta & Hlog & Hall).
  exists delta. split; [exact Hlog|].
  apply forallb_forall. intros a Ha.
  rewrite forallb_forall in Hall. specialize (Hall a Ha).
  destruct a; try discriminate Hall; reflexivity.
Qed.

(** A packet sent and the reply awaited. *)
Lemma exchange_undisturbed {A} (packet : list Z) (fuel : nat)
    (k : option (list Z) -> A) (s s' : AmsDevice W) (r : outcome A) :
  (send_packet packet;;
   d ← receive_packet fuel default_timeout; mret (k d)) s = (r, s') ->
  undisturbed s s'.
Proof.
  unfold mbind, M_bind, bind, mret, M_ret, ret.
  destruct (send_packet packet s) as [[x|e|] s1] eqn:Esend;
    apply send_packet_undisturbed in Esend;
    try (intros [= _ <-]; exact Esend).
  destruct (receive_packet fuel default_timeout s1) as [[d|e|] s2] eqn:Erecv;
    apply receive_packet_undisturbed in Erecv;
    intros [= _ <-]; eauto using undisturbed_trans.
Qed.

Lemma get_parameter_undisturbed (fuel : nat) (par : Z) (s s' : AmsDevice W)
    (r : outcome (option (list Z))) :
  get_parameter_from_device fuel par s = (r, s') -> undisturbed s s'.
Proof.
  unfold get_parameter_from_device, mbind, M_bind, bind.
  destruct (send_packet (parameter_packet par) s) as [[x|e|] s1] eqn:Esend;
    apply send_packet_undisturbed in Esend;
    try (intros [= _ <-]; exact Esend).
  intros Hrecv. apply receive_packet_undisturbed in Hrecv.
  eauto using undisturbed_trans.
Qed.

Lemma is_device_present_undisturbed (fuel : nat) (s s' : AmsDevice W)
    (r : outcome (option bool)) :
  is_device_present fuel s = (r, s') -> undisturbed s s'.
Proof.
  unfold is_device_present.
  destruct (get_parameter_from_device fuel 200 s) as [[x|e|] s1] eqn:Eget;
    apply get_parameter_undisturbed in Eget; intros [= _ <-]; exact Eget.
Qed.

Lemma send_command_undisturbed (fuel : nat) (com : Z) (s s' : AmsDevice W)
    (r : outcome bool) :
  send_command fuel com s = (r, s') -> undisturbed s s'.
Proof. apply (exchange_undisturbed (command_packet com) fuel truthy_bytes). Qed.

Lemma sync_time_undisturbed (fuel : nat) (dt : localtime) (s s' : AmsDevice W)
    (r : outcome bool) :
  sync_time fuel dt s = (r, s') -> undisturbed s s'.
Proof.
  apply (exchange_undisturbed (sync_packet dt) fuel
           (fun r => match r with Some _ => true | None => false end)).
Qed.

Lemma start_recording_undisturbed (fuel : nat) (s s' : AmsDevice W)
    (r : outcome (option bool)) :
  start_recording fuel s = (r, s') -> undisturbed s s'.
Proof.
  unfold start_recording, mbind, M_bind, bind, ret.
  destruct (send_command fuel 5 s) as [[x|e|] s1] eqn:Ecmd;
    apply send_command_undisturbed in Ecmd; intros [= _ <-]; exact Ecmd.
Qed.

Lemma stop_recording_undisturbed (fuel : nat) (s s' : AmsDevice W)
    (r : outcome (option bool)) :
  stop_recording fuel s = (r, s') -> undisturbed s s'.
Proof.
  unfold stop_recording, mbind, M_bind, bind, ret.
  destruct (send_command fuel 6 s) as [[x|e|] s1] eqn:Ecmd;
    apply send_command_undisturbed in Ecmd; intros [= _ <-]; exact Ecmd.
Qed.

Lemma send_marker_undisturbed (marker : list Z) (s s' : AmsDevice W)
    (r : outcome unit) :
  send_marker marker s = (r, s') -> undisturbed s s'.
Proof.
  unfold send_marker. rewrite marker_packet_eq.
  apply send_packet_undisturbed.
Qed.

Lemma get_device_status_undisturbed (fuel : nat) (as_string : bool)
    (s s' : AmsDevice W) (r : xoutcome (option status_value)) :
  get_device_status fuel as_string s = (r, s') -> undisturbed s s'.
Proof.
  unfold get_device_status.
  destruct (get_parameter_from_device fuel 100 s) as [[[d|]|e|] s1] eqn:Eget;
    apply get_parameter_undisturbed in Eget;
    try (intros [= _ <-]; exact Eget).
  destruct (d !! 4%nat) as [b|]; [|intros [= _ <-]; exact Eget].
  destruct (negb as_string); [intros [= _ <-]; exact Eget|].
  destruct (status_labels !! b); intros [= _ <-]; exact Eget.
Qed.

Lemma get_device_label_undisturbed (fuel : nat) (s s' : AmsDevice W)
    (r : xoutcome (option string)) :
  get_device_label fuel s = (r, s') -> undisturbed s s'.
Proof.
  unfold get_device_label.
  destruct (get_parameter_from_device fuel 202 s) as [[[d|]|e|] s1] eqn:Eget;
    apply get_parameter_undisturbed in Eget;
    try (intros [= _ <-]; exact Eget).
  destruct (d !! 4%nat) as [b|]; intros [= _ <-]; exact Eget.
Qed.

(** X8: no request opens or closes the port or assigns [isConnected] or
    [serialPort]: after [get_parameter_from_device], [is_device_present],
    [send_command], [sync_time], [get_device_status] and
    [get_device_label], however they end, the log is the old log
    followed by calls other than open and close, and both fields are
    unchanged. *)
Theorem requests_leave_connection_alone (fuel : nat) (par com : Z)
    (dt : localtime) (as_string : bool) (s : AmsDevice W) :
  undisturbed s (snd (get_parameter_from_device fuel par s)) /\
  undisturbed s (snd (is_device_present fuel s)) /\
  undisturbed s (snd (send_command fuel com s)) /\
  undisturbed s (snd (sync_time fuel dt s)) /\
  undisturbed s (snd (get_device_status fuel as_string s)) /\
  undisturbed s (snd (get_device_label fuel s)).
Proof.
  split; [|split; [|split; [|split; [|split]]]].
  - destruct (get_parameter_from_device fuel par s) as [r s'] eqn:Hrun.
    exact (get_parameter_undisturbed _ _ _ _ _ Hrun).
  - destruct (is_device_present fuel s) as [r s'] eqn:Hrun.
    exact (is_device_present_undisturbed _ _ _ _ Hrun).
  - destruct (send_command fuel com s) as [r s'] eqn:Hrun.
    exact (send_command_undisturbed _ _ _ _ _ Hrun).
  - destruct (sync_time fuel dt s) as [r s'] eqn:Hrun.
    exact (sync_time_undisturbed _ _ _ _ _ Hrun).
  - destruct (get_device_status fuel as_string s) as [r s'] eqn:Hrun.
    exact (get_device_status_undisturbed _ _ _ _ _ Hrun).
  - destruct (get_device_label fuel s) as [r s'] eqn:Hrun.
    exact (get_device_label_undisturbed _ _ _ _ Hrun).
Qed.

End Undisturbed.


(** ** Receiving a reply *)

Section Receiving.
Context {W : Type} `{World W}.

(** X9: when, after any number of quiet turns and within the deadline,
    [in_waiting] is positive, [receive_packet] asks [in_waiting] a second
    time, reads that many bytes and returns what the read gives, without
    sleeping again. *)
Theorem receive_packet_returns_data (fuel n : nat) (timeout : Z)
    (s : AmsDevice W) (w1 w2 w3 w4 w5 : W) (t k m : Z) (data : list Z) :
  serialPort s = Some SerialObject ->
  quiet_rounds (fst (time_time (world s)) + timeout) n
               (snd (time_time (world s))) = Some w1 ->
  (n < fuel)%nat ->
  time_time w1 = (t, w2) ->
  t <= fst (time_time (world s)) + timeout ->
  serial_in_waiting w2 = (Ok k, w3) ->
  0 < k ->
  serial_in_waiting w3 = (Ok m, w4) ->
  serial_read m w4 = (Ok data, w5) ->
  receive_packet fuel timeout s =
  (Val (Some data),
   mkAms (isConnected s) (serialPort s) w5
     (log s ++ [ATime] ++ rounds_log n ++
      [ATime; AInWaiting; AInWaiting; ARead m])).
Proof.
  intros Hport Hquiet Hfuel Etime Hearly Ewait Hk Ewait2 Eread.
  destruct fuel as [|fuel]; [lia|].
  replace (S fuel) with (n + S (fuel - n))%nat by lia.
  unfold receive_packet, clock.
  destruct (time_time (world s)) as [t0 w0] eqn:Etime0.
  cbn [fst snd] in *.
  rewrite (poll_quiet n _ _ _ _ w1) by assumption.
  rewrite poll_unfold. unfold clock.
  cbn [record set_world isConnected serialPort world log].
  rewrite Etime.
  replace (t0 + timeout <? t) with false by (symmetry; apply Z.ltb_ge; lia).
  unfold port_call. cbn [record set_world isConnected serialPort world log].
  rewrite Hport, Ewait.
  replace (0 <? k) with true by (symmetry; apply Z.ltb_lt; lia).
  cbn [record set_world isConnected serialPort world log].
  rewrite Ewait2.
  cbn [record set_world isConnected serialPort world log].
  rewrite Eread.
  unfold record, set_world. cbn [isConnected serialPort world log].
  rewrite <- !app_assoc, ?Hport. reflexivity.
Qed.

(** [get_parameter_from_device] raises only what [send_packet] raised. *)
Lemma get_parameter_raise (fuel : nat) (par : Z) (s s' : AmsDevice W)
    (e : exn) :
  get_parameter_from_device fuel par s = (Raise e, s') ->
  send_packet (parameter_packet par) s = (Raise e, s').
Proof.
  unfold get_parameter_from_device, mbind, M_bind, bind.
  destruct (send_packet (parameter_packet par) s) as [[x|e0|] s1] eqn:Esend.
  - intros Hrecv. exfalso.
    apply (receive_packet_no_raise fuel default_timeout s1 e).
    rewrite Hrecv. reflexivity.
  - intros [= -> ->]. reflexivity.
  - discriminate.
Qed.

(** X10: [is_device_present] never raises, and it returns [False] only
    when the write of the request raised an exception that is not an
    [Exception], that is when the wait was interrupted while sending;
    whatever is received, or nothing, gives [True] or [None]. *)
Theorem is_device_present_never_raises (fuel : nat) (s : AmsDevice W) :
  (forall e, fst (is_device_present fuel s) <> Raise e) /\
  (forall s',
      is_device_present fuel s = (Val (Some false), s') ->
      exists e frame w',
        is_Exception e = false /\
        Codec.build_frame (parameter_packet 200) = Some frame /\
        serial_write frame (world s) = (Err e, w')).
Proof.
  unfold is_device_present.
  destruct (get_parameter_from_device fuel 200 s) as [[data|e|] s1] eqn:Eget;
    cbn [fst].
  - split; [discriminate|]. intros s' [= Hfalse _].
    exfalso. exact (presence_result_never_false data Hfalse).
  - split; [discriminate|]. intros s' _.
    apply get_parameter_raise in Eget.
    apply send_packet_raise in Eget as (Hclass & frame & w' & Hframe & Hwrite).
    exists e, frame, w'. auto.
  - split; discriminate.
Qed.

End Receiving.

(** ** Connecting when the port does not open *)

Section OpenFailure.
Context {W : Type} `{World W}.

(** X11: when opening the port raises a [SerialException], [connect]
    prints a message and returns [False] without writing anything and
    without assigning [isConnected] or [serialPort], so an instance that
    was connected before stays marked connected; any other exception
    from the open leaves [connect] as it is. *)
Theorem connect_open_failure (fuel : nat) (s : AmsDevice W) (e : exn)
    (w1 : W) :
  serial_open (world s) = (Err e, w1) ->
  connect fuel s =
  if is_SerialException e then
    (Val false,
     mkAms (isConnected s) (serialPort s) w1
       (log s ++ [AOpen; APrint "Error occured while trying to open port"]))
  else
    (Raise e, mkAms (isConnected s) (serialPort s) w1 (log s ++ [AOpen])).
Proof.
  intros Hopen. unfold connect. rewrite Hopen.
  destruct (is_SerialException e); [|reflexivity].
  unfold mbind, M_bind, bind, print, ret, record, set_world.
  cbn [isConnected serialPort world log].
  rewrite <- app_assoc. reflexivity.
Qed.

(** X18: when the port opens and the reply to the presence request
    starts with the eight presence bytes, whatever follows them,
    [connect] returns [True], sets [isConnected] and leaves the port
    open: it makes no call after the read. *)
Theorem connect_succeeds_on_presence_bytes (fuel : nat) (s s2 : AmsDevice W)
    (w1 : W) (d : list Z) :
  serial_open (world s) = (Ok tt, w1) ->
  get_parameter_from_device fuel 200
    (set_port (Some SerialObject) (record AOpen (set_world w1 s)))
    = (Val (Some d), s2) ->
  take 8 d = presence_bytes ->
  connect fuel s =
  (Val true, mkAms true (Some SerialObject) (world s2) (log s2)).
Proof.
  intros Hopen Hget Hprefix. unfold connect. rewrite Hopen.
  unfold mbind, M_bind, bind, is_device_present. rewrite Hget.
  replace (presence_result (Some d)) with (Some true)
    by (symmetry; apply presence_result_true; eauto).
  cbn [truthy]. unfold modify, ret, set_connected.
  apply get_parameter_same in Hget as [_ Hobj].
  cbn [set_port serialPort] in Hobj. rewrite Hobj. reflexivity.
Qed.

(** A successful [connect] leaves a port object behind. *)
Lemma connect_true_port (fuel : nat) (s s1 : AmsDevice W) :
  connect fuel s = (Val true, s1) ->
  serialPort s1 = Some SerialObject /\ isConnected s1 = true.
Proof.
  unfold connect.
  destruct (serial_open (world s)) as [[[]|e] w1].
  - unfold mbind, M_bind, bind.
    set (s0 := set_port (Some SerialObject) (record AOpen (set_world w1 s))).
    assert (Hs0 : serialPort s0 = Some SerialObject) by reflexivity.
    clearbody s0.
    destruct (is_device_present fuel s0) as [[r|e|] s2] eqn:Hpresent.
    + apply is_device_present_same in Hpresent as [_ Hport].
      destruct (truthy r).
      * unfold modify, ret. intros [= <-].
        cbn [set_connected serialPort isConnected].
        split; [congruence | reflexivity].
      * unfold disconnect, mbind, M_bind, bind, modify, ret.
        destruct (serialPort s2); intros [=].
    + intros [=].
    + intros [=].
  - destruct (is_SerialException e); [|intros [=]].
    unfold mbind, M_bind, bind, print, ret. intros [=].
Qed.

End OpenFailure.


(** ** The time packet *)

(** X12: for a local time from 1900 through 2155 with its fields in
    their calendar ranges, the frame of [sync_time] is the header
    16, 0, 6, 0 followed by year - 1900, month - 1, day, hour, minute,
    second, the daylight-saving flag and weekday + 1, unchanged by the
    reduction modulo 256, and then the four checksum bytes. *)
Theorem sync_time_frame_bytes (dt : localtime) :
  1900 <= year dt <= 2155 ->
  1 <= month dt <= 12 ->
  1 <= day dt <= 31 ->
  0 <= hour dt <= 23 ->
  0 <= minute dt <= 59 ->
  0 <= second dt <= 59 ->
  0 <= tm_isdst dt <= 1 ->
  0 <= weekday dt <= 6 ->
  exists crc,
    length crc = 4%nat /\
    Codec.build_frame (sync_packet dt) =
    Some ([16; 0; 6; 0; year dt - 1900; month dt - 1; day dt; hour dt;
           minute dt; second dt; tm_isdst dt; weekday dt + 1] ++ crc).
Proof.
  intros Hy Hmo Hd Hh Hmi Hs Hdst Hw.
  eexists. split; [|rewrite build_frame_eq; f_equal; f_equal].
  - reflexivity.
  - unfold sync_packet, time_array. cbn [length app map].
    change (Z.of_nat 8) with 8.
    rewrite !normalize_mod, !Z.mod_small by lia. reflexivity.
Qed.

Lemma sync_time_frame_bytes_witness :
  exists crc,
    length crc = 4%nat /\
    Codec.build_frame (sync_packet (mkLocal 2024 2 1 13 30 59 0 3)) =
    Some ([16; 0; 6; 0; 2024 - 1900; 2 - 1; 1; 13; 30; 59; 0; 3 + 1] ++ crc).
Proof.
  apply (sync_time_frame_bytes (mkLocal 2024 2 1 13 30 59 0 3));
    cbn [year month day hour minute second tm_isdst weekday]; lia.
Defined.

Example sync_time_year_2156_wraps :
  option_map (take 5)
    (Codec.build_frame (sync_packet (mkLocal 2156 1 1 0 0 0 0 0))) =
  Some [16; 0; 6; 0; 0].
Proof. vm_compute. reflexivity. Qed.

(** ** The command line *)

Section MainProperties.
Context {W : Type} `{World W}.

Lemma print_result_undisturbed {A} (port : string) (render : A -> string)
    (s s1 s' : AmsDevice W) (r1 : xoutcome A) (r : xoutcome unit) :
  undisturbed s s1 ->
  print_result port render (r1, s1) = (r, s') ->
  undisturbed s s'.
Proof.
  intros Hs1. unfold print_result.
  destruct r1; intros [= _ <-]; try exact Hs1.
  eapply undisturbed_trans; [exact Hs1|].
  apply undisturbed_record. reflexivity.
Qed.

Lemma discard_undisturbed {A} (s s1 s' : AmsDevice W) (r1 : outcome A)
    (r : xoutcome unit) :
  undisturbed s s1 -> discard (r1, s1) = (r, s') -> undisturbed s s'.
Proof.
  intros Hs1. unfold discard. destruct r1; intros [= _ <-]; exact Hs1.
Qed.

Lemma operation_undisturbed (args : Args) (port : string) (dt : localtime)
    (fuel : nat) (s s' : AmsDevice W) (r : xoutcome unit) :
  operation args port dt fuel s = (r, s') -> undisturbed s s'.
Proof.
  unfold operation.
  destruct (args_device_present args).
  { destruct (is_device_present fuel s) as [r1 s1] eqn:Hrun.
    apply print_result_undisturbed.
    exact (is_device_present_undisturbed _ _ _ _ Hrun). }
  destruct (args_label args).
  { destruct (get_device_label fuel s) as [r1 s1] eqn:Hrun.
    apply print_result_undisturbed.
    exact (get_device_label_undisturbed _ _ _ _ Hrun). }
  destruct (args_status args).
  { destruct (get_device_status fuel true s) as [r1 s1] eqn:Hrun.
    apply print_result_undisturbed.
    exact (get_device_status_undisturbed _ _ _ _ _ Hrun). }
  destruct (args_status_integer args).
  { destruct (get_device_status fuel false s) as [r1 s1] eqn:Hrun.
    apply print_result_undisturbed.
    exact (get_device_status_undisturbed _ _ _ _ _ Hrun). }
  destruct (args_sync_time args).
  { destruct (sync_time fuel dt s) as [r1 s1] eqn:Hrun.
    apply discard_undisturbed.
    exact (sync_time_undisturbed _ _ _ _ _ Hrun). }
  destruct (args_start_recording args).
  { destruct (start_recording fuel s) as [r1 s1] eqn:Hrun.
    apply discard_undisturbed.
    exact (start_recording_undisturbed _ _ _ _ Hrun). }
  destruct (args_stop_recording args).
  { destruct (stop_recording fuel s) as [r1 s1] eqn:Hrun.
    apply discard_undisturbed.
    exact (stop_recording_undisturbed _ _ _ _ Hrun). }
  destruct (args_send_marker args) as [[|c marker]|]; cbn [nonempty_marker];
    try (intros [= _ <-]; apply undisturbed_refl).
  destruct (send_marker (c :: marker) s) as [r1 s1] eqn:Hrun.
  apply discard_undisturbed.
  exact (send_marker_undisturbed _ _ _ _ Hrun).
Qed.

(** What [main] does once [connect] has returned [True]. *)
Lemma main_after_connect (args : Args)
    (ports : list Discovery.ListPortInfo) (dt : localtime) (fuel : nat)
    (w : W) (c : ascii) (name : string) (s1 : AmsDevice W) :
  (if nonempty_string (args_port args) then args_port args
   else Discovery.find_device_port ports) = Some (String c name) ->
  connect fuel (init w) = (Val true, s1) ->
  main args ports dt fuel w =
  match operation args (String c name) dt fuel s1 with
  | (XDiverge, s2) => (Hung, s2)
  | (_, s2) =>
      (Exited 0,
       mkAms false (Some SerialObject) (serial_close (world s2))
             (log s2 ++ [AClose]))
  end.
Proof.
  intros Hport Hconnect. unfold main. rewrite Hport, Hconnect.
  apply connect_true_port in Hconnect as [Hobj _].
  destruct (operation args (String c name) dt fuel s1) as [r s2] eqn:Hop.
  apply operation_undisturbed in Hop as [[_ Hsame] _].
  rewrite Hobj in Hsame.
  assert (Hdis : disconnect s2 =
                 (Val tt, mkAms false (Some SerialObject)
                            (serial_close (world s2)) (log s2 ++ [AClose]))).
  { unfold disconnect, mbind, M_bind, bind, modify, ret.
    rewrite Hsame. unfold set_connected, record, set_world.
    cbn [isConnected serialPort world log]. rewrite Hsame. reflexivity. }
  rewrite Hdis. destruct r; reflexivity.
Qed.

(** X13: once [connect] has succeeded, [main] ends with [exit(0)]
    whatever the requested operation did, also when it raised (an
    [IndexError] on a short reply, a [KeyError] on an unknown status, an
    interrupt), and it has then closed the port as its last call and set
    [isConnected] to false; only an operation that never returns keeps
    [main] from exiting. *)
Theorem main_exits_zero_once_connected (args : Args)
    (ports : list Discovery.ListPortInfo) (dt : localtime) (fuel : nat)
    (w : W) (c : ascii) (name : string) (s1 : AmsDevice W) :
  (if nonempty_string (args_port args) then args_port args
   else Discovery.find_device_port ports) = Some (String c name) ->
  connect fuel (init w) = (Val true, s1) ->
  main args ports dt fuel w =
  match operation args (String c name) dt fuel s1 with
  | (XDiverge, s2) => (Hung, s2)
  | (_, s2) =>
      (Exited 0,
       mkAms false (Some SerialObject) (serial_close (world s2))
             (log s2 ++ [AClose]))
  end.
Proof. apply main_after_connect. Qed.

(** X14: without a usable [--port] (none, or an empty one) and with no
    listed port that is the bridge, [main] prints that no port was found
    and ends with [exit(1)]; it opens nothing and makes no other call. *)
Theorem main_without_port (args : Args)
    (ports : list Discovery.ListPortInfo) (dt : localtime) (fuel : nat)
    (w : W) :
  nonempty_string (args_port args) = false ->
  Forall (fun port => Discovery.is_bridge port = false) ports ->
  main args ports dt fuel w =
  (Exited 1,
   mkAms false None w
     [APrint "Could not find a compatible device port automatically."]).
Proof.
  intros Hnone Hports. unfold main.
  rewrite Hnone, (find_device_port_none ports Hports). reflexivity.
Qed.

(** When [connect] returns [False], [main] prints that the connection
    failed and ends with [exit(1)] without running any operation. *)
Lemma main_connect_failure (args : Args)
    (ports : list Discovery.ListPortInfo) (dt : localtime) (fuel : nat)
    (w : W) (c : ascii) (name : string) (s1 : AmsDevice W) :
  (if nonempty_string (args_port args) then args_port args
   else Discovery.find_device_port ports) = Some (String c name) ->
  connect fuel (init w) = (Val false, s1) ->
  main args ports dt fuel w =
  (Exited 1,
   mkAms (isConnected s1) (serialPort s1) (world s1)
     (log s1 ++ [APrint "Failed to connect to the device."])).
Proof.
  intros Hport Hconnect. unfold main. rewrite Hport, Hconnect. reflexivity.
Qed.

Lemma operation_empty_marker (args : Args) (port : string)
    (dt : localtime) (fuel : nat) (s : AmsDevice W) :
  args_device_present args = false ->
  args_label args = false ->
  args_status args = false ->
  args_status_integer args = false ->
  args_sync_time args = false ->
  args_start_recording args = false ->
  args_stop_recording args = false ->
  args_send_marker args = Some [] ->
  operation args port dt fuel s = (XVal tt, s).
Proof.
  intros H1 H2 H3 H4 H5 H6 H7 H8. unfold operation.
  rewrite H1, H2, H3, H4, H5, H6, H7, H8. reflexivity.
Qed.

(** X15: [--send-marker] with an empty marker sends nothing: with no
    other option set, [main] connects, writes no frame after the
    presence request, closes the port and ends with [exit(0)]. *)
Theorem main_empty_marker_sends_nothing (args : Args)
    (ports : list Discovery.ListPortInfo) (dt : localtime) (fuel : nat)
    (w : W) (c : ascii) (name : string) (s1 : AmsDevice W) :
  args_device_present args = false ->
  args_label args = false ->
  args_status args = false ->
  args_status_integer args = false ->
  args_sync_time args = false ->
  args_start_recording args = false ->
  args_stop_recording args = false ->
  args_send_marker args = Some [] ->
  (if nonempty_string (args_port args) then args_port args
   else Discovery.find_device_port ports) = Some (String c name) ->
  connect fuel (init w) = (Val true, s1) ->
  main args ports dt fuel w =
  (Exited 0,
   mkAms false (Some SerialObject) (serial_close (world s1))
         (log s1 ++ [AClose])).
Proof.
  intros H1 H2 H3 H4 H5 H6 H7 H8 Hport Hconnect.
  rewrite (main_after_connect args ports dt fuel w c name s1 Hport Hconnect).
  rewrite operation_empty_marker by assumption. reflexivity.
Qed.

End MainProperties.


(** ** The checksum read back *)

Lemma lxor_below_2_32 (a b : Z) :
  0 <= a < 2 ^ 32 -> 0 <= b < 2 ^ 32 -> 0 <= Z.lxor a b < 2 ^ 32.
Proof.
  intros Ha Hb.
  assert (Hnn : 0 <= Z.lxor a b) by (apply Z.lxor_nonneg; lia).
  split; [exact Hnn|].
  destruct (Z.eq_dec (Z.lxor a b) 0) as [->|Hnz]; [reflexivity|].
  apply Z.log2_lt_pow2; [lia|].
  eapply Z.le_lt_trans; [apply Z.log2_lxor; lia|].
  apply Z.max_lub_lt.
  - destruct (Z.eq_dec a 0) as [->|Hane]; [reflexivity|].
    apply Z.log2_lt_pow2; lia.
  - destruct (Z.eq_dec b 0) as [->|Hbne]; [reflexivity|].
    apply Z.log2_lt_pow2; lia.
Qed.

Lemma crc_bit_below_2_32 (c : Z) :
  0 <= c < 2 ^ 32 -> 0 <= Crc.crc_bit c < 2 ^ 32.
Proof.
  intros Hc. unfold Crc.crc_bit.
  assert (Hs : 0 <= Z.shiftr c 1 < 2 ^ 32).
  { rewrite Z.shiftr_div_pow2 by lia. change (2 ^ 1) with 2.
    split; [apply Z.div_pos; lia|].
    apply Z.div_lt_upper_bound; lia. }
  destruct (Z.testbit c 0); [|exact Hs].
  apply lxor_below_2_32; [exact Hs|]. unfold Crc.poly. lia.
Qed.

Lemma crc_byte_below_2_32 (c b : Z) :
  0 <= c < 2 ^ 32 -> 0 <= b < 256 -> 0 <= Crc.crc_byte c b < 2 ^ 32.
Proof.
  intros Hc Hb. unfold Crc.crc_byte. cbn zeta.
  do 8 apply crc_bit_below_2_32.
  apply lxor_below_2_32; lia.
Qed.

Lemma crc32_below_2_32 (data : list Z) :
  Forall (fun x => 0 <= x < 256) data -> 0 <= Crc.crc32 data < 2 ^ 32.
Proof.
  intros Hdata. unfold Crc.crc32.
  apply lxor_below_2_32; [|lia].
  assert (Hfold : forall c, 0 <= c < 2 ^ 32 ->
                    0 <= fold_left Crc.crc_byte data c < 2 ^ 32).
  { induction Hdata as [|b data Hb _ IH]; intros c Hc; [exact Hc|].
    cbn [fold_left]. apply IH. apply crc_byte_below_2_32; assumption. }
  apply Hfold. lia.
Qed.

Lemma little_endian_crc_bytes (c : Z) :
  0 <= c < 2 ^ 32 -> little_endian (Codec.crc_bytes c) = c.
Proof.
  intros Hc. unfold Codec.crc_bytes, little_endian. cbn [map fold_right].
  change 0xFF with (Z.ones 8).
  rewrite !Z.land_ones, !Z.shiftr_div_pow2 by lia.
  change (2 ^ (8 * 0)) with 1. change (2 ^ (8 * 1)) with 256.
  change (2 ^ (8 * 2)) with 65536. change (2 ^ (8 * 3)) with 16777216.
  change (2 ^ 8) with 256. change (2 ^ 32) with 4294967296 in Hc.
  Z.to_euclidean_division_equations. lia.
Qed.

(** X16: every frame [send_packet] writes consists of bytes in 0..255;
    its head is the packet reduced modulo 256, and its last four bytes,
    read as a number with the least significant byte first, are the
    CRC-32 of that head, so a reader that recomputes the checksum over
    all but the last four bytes finds it there. *)
Theorem frame_checksum_round_trip (packet : list Z) :
  exists frame,
    Codec.build_frame packet = Some frame /\
    Forall (fun x => 0 <= x < 256) frame /\
    take (length packet) frame = map (fun p => p mod 256) packet /\
    little_endian (drop (length packet) frame) =
      Crc.crc32 (take (length packet) frame).
Proof.
  assert (Hbytes : Forall (fun x => 0 <= x < 256)
                     (map Codec.normalize packet)).
  { apply Forall_forall. intros x Hx.
    apply list_elem_of_In, in_map_iff in Hx as (p & <- & _).
    apply normalize_range. }
  pose proof (crc32_below_2_32 _ Hbytes) as Hcrc.
  eexists. split; [apply build_frame_eq|].
  split; [|split].
  - apply Forall_app. split; [exact Hbytes | apply crc_bytes_in_range].
  - rewrite take_app_length' by (rewrite length_map; reflexivity).
    apply map_ext. intros p. apply normalize_mod.
  - rewrite take_app_length' by (rewrite length_map; reflexivity).
    rewrite drop_app_length' by (rewrite length_map; reflexivity).
    change 0xFFFFFFFF with (Z.ones 32).
    rewrite Z.land_ones by lia.
    rewrite Z.mod_small by exact Hcrc.
    apply little_endian_crc_bytes. exact Hcrc.
Qed.

(** ** The receive loop ends *)

Section Termination.
Context {W : Type} `{World W}.

(** A clock on the world: what [time.time()] reads. It never runs
    backwards, and a sleep that returns has let at least the time asked
    for pass. *)
Variable now : W -> Z.
Hypothesis time_reads_now :
  forall w, fst (time_time w) = now w /\ now w <= now (snd (time_time w)).
Hypothesis in_waiting_takes_time :
  forall w, now w <= now (snd (serial_in_waiting w)).
Hypothesis sleep_takes_time :
  forall ms w w',
    time_sleep ms w = (Ok tt, w') -> now w + ms <= now w'.

Lemma poll_ends (fuel : nat) (end_time : Z) (s : AmsDevice W)
    (l : option (list Z)) :
  end_time < now (world s) + 100 * Z.of_nat fuel ->
  fst (poll (S fuel) end_time (s, l)) <> Diverge.
Proof.
  revert s. induction fuel as [|fuel IH]; intros s Hleft;
    rewrite poll_unfold; unfold clock;
    destruct (time_reads_now (world s)) as [Hread Hmono];
    destruct (time_time (world s)) as [t w1]; cbn [fst snd] in Hread, Hmono;
    subst t.
  - replace (end_time <? now (world s)) with true
      by (symmetry; apply Z.ltb_lt; lia).
    cbn [fst]. discriminate.
  - destruct (end_time <? now (world s)); [cbn [fst]; discriminate|].
    unfold port_call, sleep, record, set_world.
    cbn [isConnected serialPort world log].
    destruct (serialPort s) as [p|] eqn:Hport; [|cbn [fst]; discriminate].
    pose proof (in_waiting_takes_time w1) as Hwait.
    destruct (serial_in_waiting w1) as [[k|e] w2];
      [|cbn [fst]; discriminate].
    cbn [snd] in Hwait.
    destruct (0 <? k).
    + cbn [isConnected serialPort world log]. rewrite ?Hport.
      destruct (serial_in_waiting w2) as [[m|e] w3];
        [|cbn [fst]; discriminate].
      cbn [isConnected serialPort world log]. rewrite ?Hport.
      destruct (serial_read m w3) as [[d|e] w4]; cbn [fst]; discriminate.
    + cbn [isConnected serialPort world log].
      pose proof (sleep_takes_time poll_interval w2) as Hsleep.
      destruct (time_sleep poll_interval w2) as [[[]|e] w3];
        [|cbn [fst]; discriminate].
      specialize (Hsleep w3 eq_refl). unfold poll_interval in Hsleep.
      apply IH. cbn [world]. lia.
Qed.

(** X17: in a world whose clock does not run backwards and where a
    sleep takes at least the time asked for, [receive_packet] does not
    poll for ever: it has returned after at most [timeout / 100 + 2]
    turns of its loop (two for a negative timeout), 32 for the default
    of three seconds. *)
Theorem receive_packet_ends (fuel : nat) (timeout : Z) (s : AmsDevice W) :
  Z.max 0 (timeout / 100) + 2 <= Z.of_nat fuel ->
  fst (receive_packet fuel timeout s) <> Diverge.
Proof.
  intros Hfuel. unfold receive_packet, clock.
  destruct (time_reads_now (world s)) as [Hread Hmono].
  destruct (time_time (world s)) as [t0 w0]. cbn [fst snd] in Hread, Hmono.
  subst t0.
  destruct fuel as [|fuel]; [lia|].
  pose proof (poll_ends fuel (now (world s) + timeout)
                (record ATime (set_world w0 s)) None) as Hends.
  destruct (poll (S fuel) (now (world s) + timeout)
              (record ATime (set_world w0 s), None))
    as [[[]|e|] [s1 d]]; cbn [fst] in *.
  - discriminate.
  - destruct (is_KeyboardInterrupt e); discriminate.
  - exfalso. apply Hends; [|reflexivity].
    cbn [record set_world world].
    assert (timeout < 100 * (timeout / 100 + 1)).
    { pose proof (Z.mod_pos_bound timeout 100 ltac:(lia)).
      pose proof (Z.div_mod timeout 100 ltac:(lia)). lia. }
    lia.
Qed.

End Termination.


(** ** The theorems at work in the simulated world *)

(** A reply of four bytes to the status request. *)
Lemma get_device_status_integer_witness :
  get_device_status 40 false
    (Sim.opened (Sim.answering 0 [9; 0; 129; 100])) =
  (if decide (length [9; 0; 129; 100] <= 4)%nat then
     XRaise (Builtin IndexError)
   else XVal (Some (StatusCode (nth 4 [9; 0; 129; 100] 0))),
   snd (get_parameter_from_device 40 100
          (Sim.opened (Sim.answering 0 [9; 0; 129; 100])))).
Proof.
  apply (get_device_status_integer 40
           (Sim.opened (Sim.answering 0 [9; 0; 129; 100])) _
           (Some [9; 0; 129; 100])).
  vm_compute. reflexivity.
Defined.

(** A reply with status byte 7, which has no label. *)
Lemma get_device_status_label_witness :
  get_device_status 40 true
    (Sim.opened (Sim.answering 0 [9; 0; 129; 100; 7])) =
  (if decide (1 <= 7 <= 6) then
     XVal (Some (StatusLabel (nth (Z.to_nat (7 - 1)) label_table EmptyString)))
   else XRaise (KeyError 7),
   snd (get_parameter_from_device 40 100
          (Sim.opened (Sim.answering 0 [9; 0; 129; 100; 7])))).
Proof.
  apply (get_device_status_label 40
           (Sim.opened (Sim.answering 0 [9; 0; 129; 100; 7])) _
           [9; 0; 129; 100; 7] 7).
  - vm_compute. reflexivity.
  - reflexivity.
Defined.

(** A reply with label byte 203. *)
Lemma get_device_label_decimal_witness :
  exists text,
    get_device_label 40
      (Sim.opened (Sim.answering 0 [9; 0; 129; 202; 203])) =
    (XVal (Some text),
     snd (get_parameter_from_device 40 202
            (Sim.opened (Sim.answering 0 [9; 0; 129; 202; 203])))) /\
    int_of_str text = Some 203.
Proof.
  apply (get_device_label_decimal 40
           (Sim.opened (Sim.answering 0 [9; 0; 129; 202; 203])) _
           (Some [9; 0; 129; 202; 203])).
  vm_compute. reflexivity.
Defined.

(** Three bytes arrive while the loop sleeps for the second time. *)
Lemma receive_packet_returns_data_witness :
  receive_packet 32 default_timeout
    (Sim.opened (Sim.mk 0 false true [1; 2; 3] [] None None)) =
  (Val (Some [1; 2; 3]),
   mkAms false (Some SerialObject) (Sim.mk 0 true true [] [] None None)
     ([] ++ [ATime] ++ rounds_log 0 ++
      [ATime; AInWaiting; AInWaiting; ARead 3])).
Proof.
  refine (receive_packet_returns_data 32 0 default_timeout
            (Sim.opened (Sim.mk 0 false true [1; 2; 3] [] None None))
            (Sim.mk 0 true true [1; 2; 3] [] None None)
            (Sim.mk 0 true true [1; 2; 3] [] None None)
            (Sim.mk 0 true true [1; 2; 3] [] None None)
            (Sim.mk 0 true true [1; 2; 3] [] None None)
            (Sim.mk 0 true true [] [] None None)
            0 3 3 [1; 2; 3]
            eq_refl eq_refl _ eq_refl _ eq_refl _ eq_refl eq_refl).
  - lia.
  - vm_compute. discriminate.
  - lia.
Defined.

(** A port that cannot be opened. *)
Lemma connect_open_failure_witness :
  connect 40 (init (Sim.mk 0 false false [] [] None None)) =
  if is_SerialException SerialException then
    (Val false,
     mkAms false None (Sim.mk 0 false false [] [] None None)
       ([] ++ [AOpen; APrint "Error occured while trying to open port"]))
  else
    (Raise SerialException,
     mkAms false None (Sim.mk 0 false false [] [] None None) ([] ++ [AOpen])).
Proof.
  apply (connect_open_failure 40 (init (Sim.mk 0 false false [] [] None None))
           SerialException (Sim.mk 0 false false [] [] None None)).
  reflexivity.
Defined.

(** A device that answers with the presence bytes and two more. *)
Lemma connect_succeeds_on_presence_bytes_witness :
  connect 40 (init (Sim.answering 0 (presence_bytes ++ [7; 7]))) =
  (Val true,
   mkAms true (Some SerialObject)
     (Sim.mk 0 true true [] (presence_bytes ++ [7; 7]) None None)
     [AOpen; AWrite [8; 0; 1; 200; 48; 140; 84; 104]; ATime; ATime;
      AInWaiting; AInWaiting; ARead 10]).
Proof.
  refine (connect_succeeds_on_presence_bytes 40
            (init (Sim.answering 0 (presence_bytes ++ [7; 7])))
            (mkAms false (Some SerialObject)
               (Sim.mk 0 true true [] (presence_bytes ++ [7; 7]) None None)
               [AOpen; AWrite [8; 0; 1; 200; 48; 140; 84; 104]; ATime; ATime;
                AInWaiting; AInWaiting; ARead 10])
            (Sim.mk 0 true true [] (presence_bytes ++ [7; 7]) None None)
            (presence_bytes ++ [7; 7]) eq_refl _ eq_refl).
  vm_compute. reflexivity.
Defined.

(** The simulated clock does not run backwards and advances by the time
    slept, so the receive loop ends there. *)
Lemma receive_packet_ends_witness :
  fst (receive_packet 32 default_timeout (Sim.opened (Sim.silent 0)))
  <> Diverge.
Proof.
  refine (receive_packet_ends Sim.now _ _ _ 32 default_timeout
            (Sim.opened (Sim.silent 0)) _).
  - intros w. cbn. lia.
  - intros w. cbn. unfold Sim.in_waiting.
    destruct (Sim.in_waiting_error w); cbn; lia.
  - intros ms w w'. cbn. unfold Sim.sleep.
    destruct (Sim.interrupt_in w) as [[|k]|]; intros [= <-]; cbn; lia.
  - vm_compute. discriminate.
Defined.

(** [--status] against a device whose reply has status byte 65: the
    [KeyError] is lost and [main] ends with [exit(0)], the port closed. *)
Lemma main_exits_zero_once_connected_witness :
  main (mkArgs (Some "COM5"%string) false false true false false false
          false None)
       [] (mkLocal 2024 2 1 13 30 59 0 3) 40
       (Sim.answering 0 presence_bytes) =
  match
    operation
      (mkArgs (Some "COM5"%string) false false true false false false
         false None)
      "COM5" (mkLocal 2024 2 1 13 30 59 0 3) 40
      (snd (connect 40 (init (Sim.answering 0 presence_bytes))))
  with
  | (XDiverge, s2) => (Hung, s2)
  | (_, s2) =>
      (Exited 0,
       mkAms false (Some SerialObject) (serial_close (world s2))
             (log s2 ++ [AClose]))
  end.
Proof.
  apply (main_exits_zero_once_connected
           (mkArgs (Some "COM5"%string) false false true false false false
              false None)
           [] (mkLocal 2024 2 1 13 30 59 0 3) 40
           (Sim.answering 0 presence_bytes) "C" "OM5").
  - reflexivity.
  - vm_compute. reflexivity.
Defined.

Example main_status_error_is_lost :
  fst (operation
         (mkArgs (Some "COM5"%string) false false true false false false
            false None)
         "COM5" (mkLocal 2024 2 1 13 30 59 0 3) 40
         (snd (connect 40 (init (Sim.answering 0 presence_bytes))))) =
    XRaise (KeyError 65) /\
  fst (main (mkArgs (Some "COM5"%string) false false true false false false
               false None)
            [] (mkLocal 2024 2 1 13 30 59 0 3) 40
            (Sim.answering 0 presence_bytes)) = Exited 0.
Proof. split; vm_compute; reflexivity. Qed.

(** No [--port], and the only port listed is not the bridge. *)
Lemma main_without_port_witness :
  main (mkArgs None true false false false false false false None)
       [Discovery.mkPort "COM1" "Communications Port (COM1)" None None None]
       (mkLocal 2024 2 1 13 30 59 0 3) 40 (Sim.silent 0) =
  (Exited 1,
   mkAms false None (Sim.silent 0)
     [APrint "Could not find a compatible device port automatically."]).
Proof.
  apply (main_without_port
           (mkArgs None true false false false false false false None)
           [Discovery.mkPort "COM1" "Communications Port (COM1)"
              None None None]).
  - reflexivity.
  - repeat constructor.
Defined.

(** [--send-marker] with an empty marker, on a port given by name. *)
Lemma main_empty_marker_sends_nothing_witness :
  main (mkArgs (Some "COM5"%string) false false false false false false
          false (Some []))
       [] (mkLocal 2024 2 1 13 30 59 0 3) 40
       (Sim.answering 0 presence_bytes) =
  (Exited 0,
   mkAms false (Some SerialObject)
     (serial_close
        (world (snd (connect 40 (init (Sim.answering 0 presence_bytes))))))
     (log (snd (connect 40 (init (Sim.answering 0 presence_bytes)))) ++
      [AClose])).
Proof.
  apply (main_empty_marker_sends_nothing
           (mkArgs (Some "COM5"%string) false false false false false false
              false (Some []))
           [] (mkLocal 2024 2 1 13 30 59 0 3) 40
           (Sim.answering 0 presence_bytes) "C" "OM5");
    reflexivity.
Defined.

Example find_device_port_sample :
  Discovery.find_device_port
    [Discovery.mkPort "COM1" "Communications Port (COM1)" None None None;
     Discovery.mkPort "COM4" "USB Serial Port (COM4)" (Some 1027)
       (Some 24577) (Some "Prolific"%string);
     Discovery.mkPort "COM5" "USB Serial Port (COM5)" (Some 1027)
       (Some 24577) (Some "FTDI"%string);
     Discovery.mkPort "COM6" "USB Serial Port (COM6)" (Some 1027)
       (Some 24577) (Some "FTDI"%string)] =
  Some "COM5"%string.
Proof. vm_compute. reflexivity. Qed.
